(** * Crosspay server SDK (Go): webhook verification and entitlement lookups

    A shallow embedding of [src/sdk.go].  The methods of
    [CrosspayServerClient] are written as Rocq functions in a small
    error monad that also records, in order, every call the method makes
    into the Go standard library or into the generated HTTP client.  The
    library functions themselves are a parameter of the development; an
    executable model of the ones [ConstructWebhookEvent] uses is given in
    [Module GoStd] and exercised on test vectors. *)

From Stdlib Require Import ZArith List String Ascii Bool Lia.
From Stdlib.Strings Require Import Byte.
From Bignums Require Import BigZ.
Import ListNotations.
Local Open Scope Z_scope.

(** ** Go values: errors, results, slices *)

(** A Go [error] value, as far as this package builds them:
    [errors.New(text)], [fmt.Errorf(format, err)] with a [%w] verb, and
    [fmt.Errorf(format, n)] with a [%d] verb. *)
Inductive error : Type :=
| errors_New (text : string)
| fmt_Errorf (format : string) (wrapped : error)
| fmt_Errorf_d (format : string) (n : Z).

(** The pair [(value, error)] a Go function returns: either the value with
    a nil error, or a nil value and the error. *)
Inductive result (A : Type) : Type :=
| Ok (a : A)
| Fail (err : error).
Arguments Ok {A} a.
Arguments Fail {A} err.

(** A Go slice value is either nil or a (possibly empty) sequence. *)
Inductive slice (A : Type) : Type :=
| slice_nil
| slice_of (elems : list A).
Arguments slice_nil {A}.
Arguments slice_of {A} elems.

(** What [for _, x := range s] iterates over. *)
Definition slice_range {A} (s : slice A) : list A :=
  match s with
  | slice_nil => []
  | slice_of l => l
  end.

(** ** The monad of the embedding: a log of calls and a result *)

Module Traced.
Section Defs.
Context {C : Type}.

Definition M (A : Type) : Type := (list C * result A)%type.

Definition ret {A} (a : A) : M A := ([], Ok a).

Definition fail {A} (e : error) : M A := ([], Fail e).

Definition bind {A B} (m : M A) (k : A -> M B) : M B :=
  match m with
  | (log, Ok a) => let (log', r) := k a in (log ++ log', r)
  | (log, Fail e) => (log, Fail e)
  end.

(** One call into a collaborator: it is logged and its outcome becomes
    the outcome of the step. *)
Definition call {A} (c : C) (r : result A) : M A := ([c], r).

(** A step that calls no collaborator. *)
Definition lift {A} (r : result A) : M A := ([], r).

Definition log_of {A} (m : M A) : list C := fst m.
Definition outcome {A} (m : M A) : result A := snd m.
End Defs.
Arguments M C A : clear implicits.
End Traced.
Import Traced.

Declare Scope traced_scope.
Delimit Scope traced_scope with traced.
Notation "x <- m ;; k" := (Traced.bind m (fun x => k))
  (at level 61, m at next level, right associativity) : traced_scope.
Local Open Scope traced_scope.

(** [if err != nil { return nil, f(err) }] around a library result. *)
Definition or_return {A} (r : result A) (f : error -> error) : result A :=
  match r with
  | Ok a => Ok a
  | Fail err => Fail (f err)
  end.

(** ** Package [time]: instants, durations, [Since] *)

Module time.
(** [type Duration int64], a count of nanoseconds. *)
Definition Duration := Z.

Definition Second : Duration := 1000000000.
Definition Minute : Duration := 60 * Second.

Definition minDuration : Duration := - 2 ^ 63.
Definition maxDuration : Duration := 2 ^ 63 - 1.

(** Arithmetic on [int64] wraps around. *)
Definition wrap64 (z : Z) : Z := (z + 2 ^ 63) mod 2 ^ 64 - 2 ^ 63.

(** Unary minus on a [Duration]. *)
Definition neg (d : Duration) : Duration := wrap64 (- d).

(** An instant, as its number of nanoseconds since the Unix epoch.  A
    parsed [Time] carries no monotonic clock reading. *)
Definition Time := Z.

(** [t.Sub(u)]: the duration [t-u]; "if the result exceeds the maximum
    (or minimum) value that can be stored in a Duration, the maximum (or
    minimum) duration will be returned". *)
Definition Sub (t u : Time) : Duration :=
  let d := t - u in
  if d <? minDuration then minDuration
  else if maxDuration <? d then maxDuration
  else d.

(** [time.Since(t)] is [time.Now().Sub(t)]; the clock reading [now] is
    an input of the model. *)
Definition Since (now t : Time) : Duration := Sub now t.

(** The layout constant [time.RFC3339]. *)
Definition RFC3339 : string := "2006-01-02T15:04:05Z07:00".
End time.

(** ** The library surface [ConstructWebhookEvent] calls *)

(** [pem.Block] (the headers are not used by this package). *)
Record pem_Block : Type := {
  pem_Type : string;
  pem_Bytes : list byte
}.

(** [rsa.PublicKey]: modulus and public exponent. *)
Record rsa_PublicKey : Type := {
  rsa_N : Z;
  rsa_E : Z
}.

(** The dynamic type of the [any] that [x509.ParsePKIXPublicKey] returns:
    [*rsa.PublicKey], or one of the other key types, kept with the raw
    key material. *)
Inductive crypto_PublicKey : Type :=
| key_rsa (k : rsa_PublicKey)
| key_dsa (raw : list byte)
| key_ecdsa (raw : list byte)
| key_ed25519 (raw : list byte)
| key_ecdh (raw : list byte).

(** [crypto.Hash] identifiers. *)
Inductive crypto_Hash : Type := crypto_SHA1 | crypto_SHA256 | crypto_SHA512.

(** The type assertion of [pub] to a pointer to [rsa.PublicKey]. *)
Definition as_rsa_PublicKey (pub : crypto_PublicKey) : option rsa_PublicKey :=
  match pub with
  | key_rsa k => Some k
  | _ => None
  end.

(** The standard-library functions used by the method.  [Event] stands
    for the generated type [GetCustomerExtendedInfoByEmailRow]; the
    decoder is [json.Unmarshal] at that type. *)
Record Library : Type := {
  Event : Type;
  time_Parse : string -> string -> result time.Time;
  base64_StdEncoding_DecodeString : string -> result (list byte);
  pem_Decode : list byte -> option pem_Block;
  x509_ParsePKIXPublicKey : list byte -> result crypto_PublicKey;
  sha256_Sum256 : list byte -> list byte;
  rsa_VerifyPKCS1v15 :
    rsa_PublicKey -> crypto_Hash -> list byte -> list byte -> option error;
  json_Unmarshal : list byte -> result Event
}.

(** The calls a run of [ConstructWebhookEvent] can make, with their
    arguments. *)
Inductive libcall : Type :=
| call_time_Parse (layout value : string)
| call_time_Since (t : time.Time)
| call_base64_DecodeString (s : string)
| call_pem_Decode (data : list byte)
| call_x509_ParsePKIXPublicKey (der : list byte)
| call_sha256_Sum256 (data : list byte)
| call_rsa_VerifyPKCS1v15
    (pub : rsa_PublicKey) (h : crypto_Hash) (hashed sig : list byte)
| call_json_Unmarshal (data : list byte).

(** ** [ConstructWebhookEvent] (sdk.go, lines 261-325) *)

Section Webhook.
Context (L : Library).

(** Lines 273-280: the window check on the parsed timestamp. *)
Definition check_window (timeDiff : time.Duration) : result unit :=
  let timeDiff := if timeDiff <? 0 then time.neg timeDiff else timeDiff in
  if 5 * time.Minute <? timeDiff
  then Fail (errors_New "timestamp is outside the 5-minute window")
  else Ok tt.

(** Lines 282-284: the bytes the signature is checked against. *)
Definition signed_data (timestampHeader : string) (rawPayload : list byte)
  : list byte :=
  let data := list_byte_of_string timestampHeader ++ [x2e] in
  data ++ rawPayload.

Definition ConstructWebhookEvent (now : time.Time)
    (webhookPublicKey : string) (rawPayload : list byte)
    (signatureHeader timestampHeader : string)
  : M libcall (Event L) :=
  timestampDate <-
    call (call_time_Parse time.RFC3339 timestampHeader)
         (or_return (time_Parse L time.RFC3339 timestampHeader)
                    (fmt_Errorf "invalid timestamp header: %w")) ;;
  timeDiff <-
    call (call_time_Since timestampDate)
         (Ok (time.Since now timestampDate)) ;;
  _ <- lift (check_window timeDiff) ;;
  let data := signed_data timestampHeader rawPayload in
  signature <-
    call (call_base64_DecodeString signatureHeader)
         (or_return (base64_StdEncoding_DecodeString L signatureHeader)
                    (fmt_Errorf "failed to decode signature: %w")) ;;
  block <-
    call (call_pem_Decode (list_byte_of_string webhookPublicKey))
         (match pem_Decode L (list_byte_of_string webhookPublicKey) with
          | None =>
              Fail (errors_New
                      "failed to parse PEM block containing the public key")
          | Some block => Ok block
          end) ;;
  pub <-
    call (call_x509_ParsePKIXPublicKey (pem_Bytes block))
         (or_return (x509_ParsePKIXPublicKey L (pem_Bytes block))
                    (fmt_Errorf "failed to parse public key: %w")) ;;
  match as_rsa_PublicKey pub with
  | None => fail (errors_New "public key is not RSA")
  | Some rsaPub =>
      hash <- call (call_sha256_Sum256 data) (Ok (sha256_Sum256 L data)) ;;
      _ <-
        call (call_rsa_VerifyPKCS1v15 rsaPub crypto_SHA256 hash signature)
             (match rsa_VerifyPKCS1v15 L rsaPub crypto_SHA256 hash signature
              with
              | Some _ => Fail (errors_New "signature verification failed")
              | None => Ok tt
              end) ;;
      call (call_json_Unmarshal rawPayload)
           (or_return (json_Unmarshal L rawPayload)
                      (fmt_Errorf "failed to parse webhook payload: %w"))
  end.
End Webhook.

(** ** The entitlement lookups (sdk.go, lines 46-191) *)

(** What the method sees of an [*http.Response]: the status code and the
    outcome of [io.ReadAll(resp.Body)]. *)
Record http_Response : Type := {
  StatusCode : Z;
  Body : result (list byte)
}.

Definition http_StatusOK : Z := 200.

(** The response envelopes of the generated package: two pointer fields,
    [Data] and [Error], each nil or set. *)
Record envelope (D : Type) : Type := {
  Data : option D;
  Error : option string
}.
Arguments Data {D} e.
Arguments Error {D} e.

(** The generated package (not part of [src/]): its types, of which only
    the fields compared by the lookups are visible, the three client
    methods with the transport behind them, and [json.Unmarshal] at the
    three envelope types.  The compared fields are values of comparable
    types, with [==] deciding equality. *)
Record Generated : Type := {
  ProductRef : Type;
  EntitlementRef : Type;
  ProductRef_eq_dec : forall a b : ProductRef, {a = b} + {a <> b};
  EntitlementRef_eq_dec : forall a b : EntitlementRef, {a = b} + {a <> b};
  TenantProduct : Type;
  TenantEntitlement : Type;
  StorableSubscription : Type;
  TenantProduct_ProductId : TenantProduct -> ProductRef;
  TenantProduct_EntitlementId : TenantProduct -> EntitlementRef;
  TenantEntitlement_Id : TenantEntitlement -> EntitlementRef;
  StorableSubscription_ProductId : StorableSubscription -> ProductRef;
  GetTenantProducts : result http_Response;
  GetTenantEntitlementsByEnvironment : string -> result http_Response;
  PostTenantSubscriptionsActive : string -> result http_Response;
  json_Unmarshal_products :
    list byte -> result (envelope (slice TenantProduct));
  json_Unmarshal_entitlements :
    list byte -> result (envelope (slice TenantEntitlement));
  json_Unmarshal_subscription :
    list byte -> result (envelope StorableSubscription)
}.

(** The requests a lookup sends. *)
Inductive apicall : Type :=
| call_GetTenantProducts
| call_GetTenantEntitlementsByEnvironment (environment : string)
| call_PostTenantSubscriptionsActive (customerEmail : string).

(** [result.Error] is set and the string it points to is not empty; with
    the string. *)
Definition error_string (e : option string) : option string :=
  match e with
  | Some s => if String.eqb s EmptyString then None else Some s
  | None => None
  end.

Section Lookups.
Context (G : Generated).

(** First part of every lookup after the request: status check, body
    read, decoding, error string (for instance lines 54-70). *)
Definition read_envelope {D} (resp : http_Response)
    (unmarshal : list byte -> result (envelope D)) : M apicall (envelope D) :=
  if negb (StatusCode resp =? http_StatusOK)
  then fail (fmt_Errorf_d "unexpected status code: %d" (StatusCode resp))
  else
    body <- lift (Body resp) ;;
    result <- lift (unmarshal body) ;;
    match error_string (Error result) with
    | Some s => fail (errors_New s)
    | None => ret result
    end.

Definition ListProducts : M apicall (slice (TenantProduct G)) :=
  resp <- call call_GetTenantProducts (GetTenantProducts G) ;;
  result <- read_envelope resp (json_Unmarshal_products G) ;;
  match Data result with
  | None => ret (slice_of [])
  | Some data => ret data
  end.

Definition ListEntitlements (environment : string)
  : M apicall (slice (TenantEntitlement G)) :=
  resp <- call (call_GetTenantEntitlementsByEnvironment environment)
               (GetTenantEntitlementsByEnvironment G environment) ;;
  result <- read_envelope resp (json_Unmarshal_entitlements G) ;;
  match Data result with
  | None => ret (slice_of [])
  | Some data => ret data
  end.

Definition GetActiveSubscription (customerEmail : string)
  : M apicall (option (StorableSubscription G)) :=
  resp <- call (call_PostTenantSubscriptionsActive customerEmail)
               (PostTenantSubscriptionsActive G customerEmail) ;;
  result <- read_envelope resp (json_Unmarshal_subscription G) ;;
  ret (Data result).

(** Lines 160-166: the loop over the products, leaving at the first
    match. *)
Fixpoint range_products (products : list (TenantProduct G))
    (activeSubscription : StorableSubscription G)
  : option (TenantProduct G) :=
  match products with
  | [] => None
  | product :: rest =>
      if ProductRef_eq_dec G (TenantProduct_ProductId G product)
           (StorableSubscription_ProductId G activeSubscription)
      then Some product
      else range_products rest activeSubscription
  end.

Definition GetActiveProduct (customerEmail : string)
  : M apicall (option (TenantProduct G)) :=
  activeSubscription <- GetActiveSubscription customerEmail ;;
  match activeSubscription with
  | None => ret None
  | Some activeSubscription =>
      products <- ListProducts ;;
      ret (range_products (slice_range products) activeSubscription)
  end.

(** Lines 184-190: the loop over the entitlements. *)
Fixpoint range_entitlements (entitlements : list (TenantEntitlement G))
    (activeProduct : TenantProduct G)
  : option (TenantEntitlement G) :=
  match entitlements with
  | [] => None
  | entitlement :: rest =>
      if EntitlementRef_eq_dec G (TenantEntitlement_Id G entitlement)
           (TenantProduct_EntitlementId G activeProduct)
      then Some entitlement
      else range_entitlements rest activeProduct
  end.

Definition GetActiveEntitlement (customerEmail environment : string)
  : M apicall (option (TenantEntitlement G)) :=
  activeProduct <- GetActiveProduct customerEmail ;;
  match activeProduct with
  | None => ret None
  | Some activeProduct =>
      entitlements <- ListEntitlements environment ;;
      ret (range_entitlements (slice_range entitlements) activeProduct)
  end.

End Lookups.

(** ** The error kinds of the specification *)

Inductive ErrorKind : Type :=
| TimestampParseError
| TimestampExpiredError
| SignatureDecodeError
| PublicKeyParseError
| UnsupportedKeyTypeError
| SignatureVerificationError
| PayloadDecodeError.

(** The kind of each error [ConstructWebhookEvent] builds, read off its
    message. *)
Definition kind_of (e : error) : option ErrorKind :=
  match e with
  | errors_New text =>
      if String.eqb text "timestamp is outside the 5-minute window"
      then Some TimestampExpiredError
      else if String.eqb text
                "failed to parse PEM block containing the public key"
      then Some PublicKeyParseError
      else if String.eqb text "public key is not RSA"
      then Some UnsupportedKeyTypeError
      else if String.eqb text "signature verification failed"
      then Some SignatureVerificationError
      else None
  | fmt_Errorf format _ =>
      if String.eqb format "invalid timestamp header: %w"
      then Some TimestampParseError
      else if String.eqb format "failed to decode signature: %w"
      then Some SignatureDecodeError
      else if String.eqb format "failed to parse public key: %w"
      then Some PublicKeyParseError
      else if String.eqb format "failed to parse webhook payload: %w"
      then Some PayloadDecodeError
      else None
  | fmt_Errorf_d _ _ => None
  end.

(** The freshness condition as the specification words it: the absolute
    difference between the current time and the parsed time does not
    exceed the skew window. *)
Definition maxClockSkew : Z := 5 * time.Minute.

Definition within_skew (now t : time.Time) : Prop :=
  Z.abs (now - t) <= maxClockSkew.

(** ** Stages of a run of [ConstructWebhookEvent] *)

Section WebhookStages.
Context (L : Library).

(** The input got as far as the signature check: the timestamp parsed
    and passed the window check, the signature header decoded to [sig],
    and the key text held an RSA key [pub]. *)
Definition reaches_verification (now : time.Time)
    (webhookPublicKey signatureHeader timestampHeader : string)
    (sig : list byte) (pub : rsa_PublicKey) : Prop :=
  exists t block,
    time_Parse L time.RFC3339 timestampHeader = Ok t /\
    check_window (time.Since now t) = Ok tt /\
    base64_StdEncoding_DecodeString L signatureHeader = Ok sig /\
    pem_Decode L (list_byte_of_string webhookPublicKey) = Some block /\
    x509_ParsePKIXPublicKey L (pem_Bytes block) = Ok (key_rsa pub).

(** The digest handed to the signature check. *)
Definition digest (timestampHeader : string) (rawPayload : list byte)
  : list byte :=
  sha256_Sum256 L (signed_data timestampHeader rawPayload).

(** The library's check accepts a signature under a key for one digest
    at most, as a PKCS #1 v1.5 check does: the digest is part of the
    encoded message the signature is compared with. *)
Definition accepts_one_digest : Prop :=
  forall pub hashed hashed' sig,
    rsa_VerifyPKCS1v15 L pub crypto_SHA256 hashed sig = None ->
    rsa_VerifyPKCS1v15 L pub crypto_SHA256 hashed' sig = None ->
    hashed = hashed'.

(** A call that computes a digest or checks a signature. *)
Definition is_crypto (c : libcall) : bool :=
  match c with
  | call_sha256_Sum256 _ | call_rsa_VerifyPKCS1v15 _ _ _ _ => true
  | _ => false
  end.

Definition is_decode (c : libcall) : bool :=
  match c with
  | call_json_Unmarshal _ => true
  | _ => false
  end.

End WebhookStages.

(** ** The active entitlement as the specification words it

    Fetch the active subscription, find the first listed product whose
    identifier is the subscription's product reference, find the first
    listed entitlement whose identifier is that product's entitlement
    reference. *)

Section Join.
Context (G : Generated).

Definition product_of (sub : StorableSubscription G)
    (products : list (TenantProduct G)) : option (TenantProduct G) :=
  find (fun p =>
          if ProductRef_eq_dec G (TenantProduct_ProductId G p)
               (StorableSubscription_ProductId G sub)
          then true else false) products.

Definition entitlement_of (product : TenantProduct G)
    (entitlements : list (TenantEntitlement G))
  : option (TenantEntitlement G) :=
  find (fun e =>
          if EntitlementRef_eq_dec G (TenantEntitlement_Id G e)
               (TenantProduct_EntitlementId G product)
          then true else false) entitlements.


End Join.

(** * An executable model of the library functions

    The functions of [Library] as the Go standard library documents them,
    on the inputs a webhook delivery is made of.  Where the model covers
    less than the library does (PEM headers, JSON escapes, ...), it
    reports an error. *)

Module GoStd.

(** ** Bytes and big-endian integers *)

Definition Z_of_byte (b : byte) : Z := Z.of_N (Byte.to_N b).

Definition byte_of_Z (z : Z) : byte :=
  match Byte.of_N (Z.to_N (z mod 256)) with
  | Some b => b
  | None => x00
  end.

(** [new(big.Int).SetBytes(b)]. *)
Fixpoint OS2IP_acc (acc : Z) (bs : list byte) : Z :=
  match bs with
  | [] => acc
  | b :: rest => OS2IP_acc (acc * 256 + Z_of_byte b) rest
  end.

Definition OS2IP (bs : list byte) : Z := OS2IP_acc 0 bs.

(** [z.FillBytes(make([]byte, k))]: [k] bytes, most significant first. *)
Fixpoint I2OSP (k : nat) (z : Z) : list byte :=
  match k with
  | O => []
  | S k' => I2OSP k' (z / 256) ++ [byte_of_Z z]
  end.

Definition bytes_eqb (a b : list byte) : bool :=
  if list_eq_dec Byte.byte_eq_dec a b then true else false.

Definition digit_val (b : byte) : option Z :=
  let v := Z_of_byte b in
  if (48 <=? v) && (v <=? 57) then Some (v - 48) else None.

(** ** [encoding/base64]: [StdEncoding.DecodeString] *)

(** Value of a character of the standard alphabet. *)
Definition b64_value (b : byte) : option Z :=
  let v := Z_of_byte b in
  if (65 <=? v) && (v <=? 90) then Some (v - 65)
  else if (97 <=? v) && (v <=? 122) then Some (v - 71)
  else if (48 <=? v) && (v <=? 57) then Some (v + 4)
  else if v =? 43 then Some 62
  else if v =? 47 then Some 63
  else None.

Definition is_newline (b : byte) : bool :=
  let v := Z_of_byte b in (v =? 10) || (v =? 13).

Definition is_pad (b : byte) : bool := Z_of_byte b =? 61.

(** The decoder reads quanta of four characters; padding may only close
    the last quantum, and the bits of the last character that do not
    belong to a byte are dropped (the encoding is not [Strict]). *)
Fixpoint b64_quanta (fuel : nat) (cs : list byte) : option (list byte) :=
  match fuel with
  | O => None
  | S fuel' =>
      match cs with
      | [] => Some []
      | a :: b :: c :: d :: rest =>
          match b64_value a, b64_value b with
          | Some va, Some vb =>
              let b0 := byte_of_Z (va * 4 + vb / 16) in
              if is_pad c then
                if is_pad d then
                  match rest with [] => Some [b0] | _ => None end
                else None
              else
                match b64_value c with
                | Some vc =>
                    let b1 := byte_of_Z ((vb mod 16) * 16 + vc / 4) in
                    if is_pad d then
                      match rest with [] => Some [b0; b1] | _ => None end
                    else
                      match b64_value d with
                      | Some vd =>
                          let b2 := byte_of_Z ((vc mod 4) * 64 + vd) in
                          match b64_quanta fuel' rest with
                          | Some tl => Some (b0 :: b1 :: b2 :: tl)
                          | None => None
                          end
                      | None => None
                      end
                | None => None
                end
          | _, _ => None
          end
      | _ => None
      end
  end.

Definition base64_decode_bytes (src : list byte) : option (list byte) :=
  let cs := filter (fun b => negb (is_newline b)) src in
  b64_quanta (S (List.length cs)) cs.

Definition base64_DecodeString (s : string) : result (list byte) :=
  match base64_decode_bytes (list_byte_of_string s) with
  | Some bs => Ok bs
  | None => Fail (errors_New "illegal base64 data")
  end.

(** ** [time]: [Parse] with the layout [RFC3339]

    The texts read are those the layout prints.  [time.Parse] reads more:
    a comma as the decimal mark, an hour of one digit, and zone offsets
    beyond 23:59.  The general statements hold for every [Library]; this
    parser is run on the vectors only. *)

Definition is_leap (y : Z) : bool :=
  (y mod 4 =? 0) && (negb (y mod 100 =? 0) || (y mod 400 =? 0)).

Definition days_in (y m : Z) : Z :=
  if m =? 2 then (if is_leap y then 29 else 28)
  else if (m =? 4) || (m =? 6) || (m =? 9) || (m =? 11) then 30
  else 31.

(** Days from 1970-01-01 to the civil date [y-m-d]. *)
Definition days_from_civil (y m d : Z) : Z :=
  let y' := if m <=? 2 then y - 1 else y in
  let era := y' / 400 in
  let yoe := y' - era * 400 in
  let mp := (m + 9) mod 12 in
  let doy := (153 * mp + 2) / 5 + d - 1 in
  let doe := yoe * 365 + yoe / 4 - yoe / 100 + doy in
  era * 146097 + doe - 719468.

(** A fixed number of decimal digits. *)
Fixpoint take_digits (n : nat) (acc : Z) (cs : list byte)
  : option (Z * list byte) :=
  match n with
  | O => Some (acc, cs)
  | S n' =>
      match cs with
      | c :: rest =>
          match digit_val c with
          | Some v => take_digits n' (acc * 10 + v) rest
          | None => None
          end
      | [] => None
      end
  end.

Definition expect (ch : Z) (cs : list byte) : option (list byte) :=
  match cs with
  | c :: rest => if Z_of_byte c =? ch then Some rest else None
  | [] => None
  end.

(** The fraction of a second after the seconds field: up to nine digits,
    as nanoseconds. *)
Fixpoint take_fraction (scale : Z) (acc : Z) (cs : list byte)
  : Z * list byte :=
  match cs with
  | c :: rest =>
      match digit_val c with
      | Some v => take_fraction (scale / 10) (acc + v * scale) rest
      | None => (acc, cs)
      end
  | [] => (acc, cs)
  end.

Definition parse_zone (cs : list byte) : option Z :=
  match cs with
  | [z] => if Z_of_byte z =? 90 then Some 0 else None
  | s :: rest =>
      let sign :=
        if Z_of_byte s =? 43 then Some 1
        else if Z_of_byte s =? 45 then Some (-1) else None in
      match sign with
      | None => None
      | Some sg =>
          match take_digits 2 0 rest with
          | Some (hh, r1) =>
              match expect 58 r1 with
              | Some r2 =>
                  match take_digits 2 0 r2 with
                  | Some (mm, []) =>
                      if (hh <? 24) && (mm <? 60)
                      then Some (sg * (hh * 3600 + mm * 60))
                      else None
                  | _ => None
                  end
              | None => None
              end
          | None => None
          end
      end
  | [] => None
  end.

Definition opt_bind {A B} (o : option A) (k : A -> option B) : option B :=
  match o with
  | Some a => k a
  | None => None
  end.

Definition parse_rfc3339 (cs : list byte) : option time.Time :=
  opt_bind (take_digits 4 0 cs) (fun '(y, r) =>
  opt_bind (expect 45 r) (fun r =>
  opt_bind (take_digits 2 0 r) (fun '(mo, r) =>
  opt_bind (expect 45 r) (fun r =>
  opt_bind (take_digits 2 0 r) (fun '(d, r) =>
  opt_bind (expect 84 r) (fun r =>
  opt_bind (take_digits 2 0 r) (fun '(h, r) =>
  opt_bind (expect 58 r) (fun r =>
  opt_bind (take_digits 2 0 r) (fun '(mi, r) =>
  opt_bind (expect 58 r) (fun r =>
  opt_bind (take_digits 2 0 r) (fun '(s, r) =>
  let '(ns, r) :=
    match expect 46 r with
    | Some (c :: r') =>
        match digit_val c with
        | Some _ => take_fraction 100000000 0 (c :: r')
        | None => (0, r)
        end
    | _ => (0, r)
    end in
  opt_bind (parse_zone r) (fun off =>
  if (1 <=? mo) && (mo <=? 12) && (1 <=? d) && (d <=? days_in y mo)
     && (h <? 24) && (mi <? 60) && (s <? 60)
  then
    Some (((days_from_civil y mo d * 86400 + h * 3600 + mi * 60 + s - off)
           * 1000000000) + ns)
  else None)))))))))))).

Definition time_Parse (layout value : string) : result time.Time :=
  if String.eqb layout time.RFC3339 then
    match parse_rfc3339 (list_byte_of_string value) with
    | Some t => Ok t
    | None => Fail (errors_New "parsing time: cannot parse as RFC3339")
    end
  else Fail (errors_New "parsing time: layout not supported").

(** ** [crypto/sha256]: [Sum256] (FIPS 180-4) *)

Definition w32 (z : Z) : Z := z mod 4294967296.

Definition rotr (n x : Z) : Z :=
  Z.lor (Z.shiftr x n) (w32 (Z.shiftl x (32 - n))).

Definition Ch (x y z : Z) : Z :=
  Z.lxor (Z.land x y) (Z.land (Z.lxor x 4294967295) z).

Definition Maj (x y z : Z) : Z :=
  Z.lxor (Z.lxor (Z.land x y) (Z.land x z)) (Z.land y z).

Definition Sigma0 (x : Z) : Z :=
  Z.lxor (Z.lxor (rotr 2 x) (rotr 13 x)) (rotr 22 x).

Definition Sigma1 (x : Z) : Z :=
  Z.lxor (Z.lxor (rotr 6 x) (rotr 11 x)) (rotr 25 x).

Definition sigma0 (x : Z) : Z :=
  Z.lxor (Z.lxor (rotr 7 x) (rotr 18 x)) (Z.shiftr x 3).

Definition sigma1 (x : Z) : Z :=
  Z.lxor (Z.lxor (rotr 17 x) (rotr 19 x)) (Z.shiftr x 10).

(** The round constants are the first 32 bits of the fractional parts of
    the cube roots of the first 64 primes, and the initial hash value
    those of the square roots of the first 8 primes; they are computed
    from that definition. *)
Definition is_prime (n : Z) : bool :=
  (1 <? n)
  && forallb (fun d => negb (n mod d =? 0))
       (map (fun i => Z.of_nat i + 2) (seq 0 (Z.to_nat (Z.sqrt n - 1)))).

Fixpoint primes_from (fuel count : nat) (n : Z) : list Z :=
  match fuel, count with
  | S fuel', S count' =>
      if is_prime n then n :: primes_from fuel' count' (n + 1)
      else primes_from fuel' count (n + 1)
  | _, _ => []
  end.

Definition first_primes (count : nat) : list Z := primes_from 400 count 2.

(** Integer cube root, one bit at a time from bit [b-1] down. *)
Fixpoint cube_root_bits (b : nat) (r n : Z) : Z :=
  match b with
  | O => r
  | S b' =>
      let c := r + 2 ^ Z.of_nat b' in
      cube_root_bits b' (if c * c * c <=? n then c else r) n
  end.

Definition sha256_K : list Z :=
  map (fun p => w32 (cube_root_bits 40 0 (p * 2 ^ 96))) (first_primes 64).

Definition sha256_H0 : list Z :=
  map (fun p => w32 (Z.sqrt (p * 2 ^ 64))) (first_primes 8).

(** The message followed by the bit 1, zeros, and its length in bits on
    eight bytes, up to a multiple of 64 bytes. *)
Definition sha256_pad (msg : list byte) : list byte :=
  let len := Z.of_nat (List.length msg) in
  let zeros := Z.to_nat ((55 - len) mod 64) in
  msg ++ [x80] ++ repeat x00 zeros ++ I2OSP 8 (len * 8).

(** Big-endian 32-bit words of a byte sequence. *)
Fixpoint words_of (fuel : nat) (bs : list byte) : list Z :=
  match fuel with
  | O => []
  | S fuel' =>
      match bs with
      | a :: b :: c :: d :: rest =>
          OS2IP [a; b; c; d] :: words_of fuel' rest
      | _ => []
      end
  end.

(** The message schedule: [rev_w] holds the words so far, newest first. *)
Fixpoint schedule (n : nat) (rev_w : list Z) : list Z :=
  match n with
  | O => rev_w
  | S n' =>
      let w :=
        w32 (sigma1 (nth 1 rev_w 0) + nth 6 rev_w 0
             + sigma0 (nth 14 rev_w 0) + nth 15 rev_w 0) in
      schedule n' (w :: rev_w)
  end.

Definition sha256_round (st : list Z) (kw : Z * Z) : list Z :=
  match st with
  | [a; b; c; d; e; f; g; h] =>
      let t1 := w32 (h + Sigma1 e + Ch e f g + fst kw + snd kw) in
      let t2 := w32 (Sigma0 a + Maj a b c) in
      [w32 (t1 + t2); a; b; c; w32 (d + t1); e; f; g]
  | _ => st
  end.

Definition sha256_block (h : list Z) (block : list Z) : list Z :=
  let w := rev (schedule 48 (rev block)) in
  let st := fold_left sha256_round (combine sha256_K w) h in
  map (fun p => w32 (fst p + snd p)) (combine h st).

Fixpoint sha256_blocks (fuel : nat) (h : list Z) (ws : list Z) : list Z :=
  match fuel with
  | O => h
  | S fuel' =>
      match ws with
      | [] => h
      | _ => sha256_blocks fuel' (sha256_block h (firstn 16 ws)) (skipn 16 ws)
      end
  end.

Definition sha256_Sum256 (data : list byte) : list byte :=
  let padded := sha256_pad data in
  let ws := words_of (List.length padded) padded in
  let h := sha256_blocks (List.length ws) sha256_H0 ws in
  flat_map (I2OSP 4) h.

(** ** [crypto/rsa]: PKCS #1 v1.5 signatures (RFC 8017, section 8.2) *)

Definition rsa_ErrVerification : error :=
  errors_New "crypto/rsa: verification error".

(** Modular exponentiation by squaring, run on machine-word integers. *)
Fixpoint pow_mod_pos (b : bigZ) (e : positive) (n : bigZ) : bigZ :=
  match e with
  | xH => BigZ.modulo b n
  | xO e' =>
      let r := pow_mod_pos b e' n in BigZ.modulo (BigZ.mul r r) n
  | xI e' =>
      let r := pow_mod_pos b e' n in
      BigZ.modulo (BigZ.mul (BigZ.modulo (BigZ.mul r r) n) b) n
  end.

Definition pow_mod (b e n : Z) : Z :=
  match e with
  | Zpos p => BigZ.to_Z (pow_mod_pos (BigZ.of_Z b) p (BigZ.of_Z n))
  | _ => 1 mod n
  end.

(** [pub.Size()]: the length of the modulus in bytes. *)
Definition rsa_Size (pub : rsa_PublicKey) : nat :=
  Z.to_nat ((Z.log2 (rsa_N pub) + 8) / 8).

(** The DER prefix of a SHA-256 [DigestInfo]. *)
Definition sha256_prefix : list byte :=
  [x30; x31; x30; x0d; x06; x09; x60; x86; x48; x01; x65; x03; x04; x02;
   x01; x05; x00; x04; x20].

(** [pkcs1v15ConstructEM]: [00 01 ff .. ff 00 prefix hashed], on [k]
    bytes, with at least eight bytes [ff]. *)
Definition pkcs1v15ConstructEM (pub : rsa_PublicKey) (h : crypto_Hash)
    (hashed : list byte) : option (list byte) :=
  match h with
  | crypto_SHA256 =>
      if negb (Nat.eqb (List.length hashed) 32) then None
      else
        let k := rsa_Size pub in
        let tLen := (List.length sha256_prefix + List.length hashed)%nat in
        if (k <? tLen + 11)%nat then None
        else
          Some ([x00; x01] ++ repeat xff (k - tLen - 3) ++ [x00]
                ++ sha256_prefix ++ hashed)
  | _ => None
  end.

(** [pub.N.BitLen()]. *)
Definition rsa_BitLen (pub : rsa_PublicKey) : Z :=
  if rsa_N pub <=? 0 then 0 else Z.log2 (rsa_N pub) + 1.

(** [checkPublicKeySize] (Go 1.24 and later): a key of less than 1024
    bits is refused, for signing and for verifying. *)
Definition checkPublicKeySize (pub : rsa_PublicKey) : option error :=
  if rsa_BitLen pub <? 1024
  then Some (fmt_Errorf_d
               "crypto/rsa: %d-bit keys are insecure (see https://go.dev/pkg/crypto/rsa#hdr-Minimum_key_size)"
               (rsa_BitLen pub))
  else None.

Definition rsa_VerifyPKCS1v15 (pub : rsa_PublicKey) (h : crypto_Hash)
    (hashed sig : list byte) : option error :=
  if (rsa_N pub <=? 0) || (rsa_E pub <? 2) then Some rsa_ErrVerification
  else
    match checkPublicKeySize pub with
    | Some e => Some e
    | None =>
        if negb (Nat.eqb (rsa_Size pub) (List.length sig))
        then Some rsa_ErrVerification
        else
          let c := OS2IP sig in
          if rsa_N pub <=? c then Some rsa_ErrVerification
          else
            let em :=
              I2OSP (rsa_Size pub) (pow_mod c (rsa_E pub) (rsa_N pub)) in
            match pkcs1v15ConstructEM pub h hashed with
            | None => Some rsa_ErrVerification
            | Some expected =>
                if bytes_eqb em expected then None
                else Some rsa_ErrVerification
            end
    end.

(** [rsa.PrivateKey], without the precomputed values. *)
Record rsa_PrivateKey : Type := {
  rsa_PublicKey_of : rsa_PublicKey;
  rsa_D : Z
}.

(** [rsa.SignPKCS1v15]: the encoded message is raised to the private
    exponent and the result checked with the public one before it is
    returned. *)
Definition rsa_SignPKCS1v15 (priv : rsa_PrivateKey) (h : crypto_Hash)
    (hashed : list byte) : result (list byte) :=
  let pub := rsa_PublicKey_of priv in
  if (rsa_N pub <=? 0) || (rsa_E pub <? 2)
  then Fail (errors_New "crypto/rsa: invalid key")
  else
    match checkPublicKeySize pub with
    | Some e => Fail e
    | None =>
        match pkcs1v15ConstructEM pub h hashed with
        | None =>
            Fail (errors_New "crypto/rsa: message too long for RSA key size")
        | Some em =>
            let c := OS2IP em in
            let m := pow_mod c (rsa_D priv) (rsa_N pub) in
            if pow_mod m (rsa_E pub) (rsa_N pub) =? c
            then Ok (I2OSP (rsa_Size pub) m)
            else Fail rsa_ErrVerification
        end
    end.

(** ** [encoding/pem]: [Decode]

    Blocks without header lines are read; [pem.Decode] also reads the
    header lines of a block.  The general statements hold for every
    [Library]; this decoder is run on the vectors only. *)

Definition is_blank (b : byte) : bool :=
  let v := Z_of_byte b in (v =? 32) || (v =? 9) || (v =? 13).

(** The lines of a text, without their line ends. *)
Fixpoint split_lines (cur : list byte) (bs : list byte) : list (list byte) :=
  match bs with
  | [] => match cur with [] => [] | _ => [rev cur] end
  | b :: rest =>
      if Z_of_byte b =? 10 then rev cur :: split_lines [] rest
      else split_lines (b :: cur) rest
  end.

Definition trim_right (l : list byte) : list byte :=
  rev ((fix drop (r : list byte) : list byte :=
          match r with
          | b :: r' => if is_blank b then drop r' else r
          | [] => []
          end) (rev l)).

Fixpoint strip_prefix (p l : list byte) : option (list byte) :=
  match p, l with
  | [], _ => Some l
  | a :: p', b :: l' =>
      if Byte.eqb a b then strip_prefix p' l' else None
  | _ :: _, [] => None
  end.

Definition strip_suffix (p l : list byte) : option (list byte) :=
  match strip_prefix (rev p) (rev l) with
  | Some r => Some (rev r)
  | None => None
  end.

Definition pem_dashes : list byte := list_byte_of_string "-----".
Definition pem_begin : list byte := list_byte_of_string "-----BEGIN ".
Definition pem_end : list byte := list_byte_of_string "-----END ".

(** The label of a [-----BEGIN label-----] line. *)
Definition begin_label (line : list byte) : option (list byte) :=
  match strip_prefix pem_begin (trim_right line) with
  | Some r => strip_suffix pem_dashes r
  | None => None
  end.

(** The lines up to the [-----END label-----] line. *)
Fixpoint pem_body (label : list byte) (lines : list (list byte))
  : option (list byte) :=
  match lines with
  | [] => None
  | l :: rest =>
      match strip_prefix pem_end (trim_right l) with
      | Some r =>
          if bytes_eqb r (label ++ pem_dashes) then Some [] else None
      | None =>
          match pem_body label rest with
          | Some body => Some (filter (fun b => negb (is_blank b)) l ++ body)
          | None => None
          end
      end
  end.

(** The first block of the text; blocks with headers are not covered. *)
Fixpoint pem_first_block (lines : list (list byte)) : option pem_Block :=
  match lines with
  | [] => None
  | l :: rest =>
      match begin_label l with
      | Some label =>
          match pem_body label rest with
          | Some body =>
              match base64_decode_bytes body with
              | Some der =>
                  Some {| pem_Type := string_of_list_byte label;
                          pem_Bytes := der |}
              | None => None
              end
          | None => None
          end
      | None => pem_first_block rest
      end
  end.

Definition pem_Decode (data : list byte) : option pem_Block :=
  pem_first_block (split_lines [] data).

(** ** [crypto/x509]: [ParsePKIXPublicKey] *)

(** One DER element: its tag, its content, and what follows it. *)
Definition der_element (bs : list byte)
  : option (Z * list byte * list byte) :=
  match bs with
  | tag :: l0 :: rest =>
      let l := Z_of_byte l0 in
      if l <? 128 then
        if (Z.of_nat (List.length rest) <? l) then None
        else Some (Z_of_byte tag, firstn (Z.to_nat l) rest,
                   skipn (Z.to_nat l) rest)
      else
        let n := Z.to_nat (l - 128) in
        if (n =? 0)%nat || (4 <? n)%nat || (List.length rest <? n)%nat
        then None
        else
          let len := OS2IP (firstn n rest) in
          let rest' := skipn n rest in
          if (len <? 128) || (Z.of_nat (List.length rest') <? len) then None
          else Some (Z_of_byte tag, firstn (Z.to_nat len) rest',
                     skipn (Z.to_nat len) rest')
  | _ => None
  end.

(** A DER INTEGER that is not negative. *)
Definition der_natural (content : list byte) : option Z :=
  match content with
  | [] => None
  | b :: _ => if Z_of_byte b <? 128 then Some (OS2IP content) else None
  end.

Definition oid_rsaEncryption : list byte :=
  [x2a; x86; x48; x86; xf7; x0d; x01; x01; x01].
Definition oid_ecPublicKey : list byte :=
  [x2a; x86; x48; xce; x3d; x02; x01].
Definition oid_Ed25519 : list byte := [x2b; x65; x70].

Definition x509_error (text : string) : result crypto_PublicKey :=
  Fail (errors_New text).

(** The [RSAPublicKey] inside the bit string: modulus and exponent. *)
Definition parse_pkcs1PublicKey (bs : list byte) : result crypto_PublicKey :=
  match der_element bs with
  | Some (48, seq, []) =>
      match der_element seq with
      | Some (2, n, r1) =>
          match der_element r1 with
          | Some (2, e, []) =>
              match der_natural n, der_natural e with
              | Some vn, Some ve =>
                  if vn <=? 0
                  then x509_error "x509: RSA modulus is not a positive number"
                  else if ve <=? 0
                  then x509_error
                         "x509: RSA public exponent is not a positive number"
                  else if 2147483647 <? ve
                  then x509_error "x509: RSA public exponent too large"
                  else Ok (key_rsa {| rsa_N := vn; rsa_E := ve |})
              | _, _ => x509_error "x509: invalid RSA public key"
              end
          | _ => x509_error "x509: invalid RSA public key"
          end
      | _ => x509_error "x509: invalid RSA public key"
      end
  | _ => x509_error "x509: invalid RSA public key"
  end.

(** [SubjectPublicKeyInfo]: an algorithm identifier and a bit string; the
    key type follows the algorithm.  Elliptic-curve points are kept as
    they come. *)
Definition x509_ParsePKIXPublicKey (der : list byte)
  : result crypto_PublicKey :=
  match der_element der with
  | Some (48, spki, []) =>
      match der_element spki with
      | Some (48, alg, r1) =>
          match der_element alg, der_element r1 with
          | Some (6, oid, params), Some (3, x00 :: keybits, []) =>
              if bytes_eqb oid oid_rsaEncryption then
                if bytes_eqb params [x05; x00]
                then parse_pkcs1PublicKey keybits
                else x509_error "x509: RSA key missing NULL parameters"
              else if bytes_eqb oid oid_ecPublicKey then
                match der_element params with
                | Some (6, _, []) => Ok (key_ecdsa keybits)
                | _ => x509_error "x509: failed to parse ECDSA parameters"
                end
              else if bytes_eqb oid oid_Ed25519 then
                if negb (Nat.eqb (List.length params) 0)
                then x509_error "x509: Ed25519 key encoded with illegal parameters"
                else if negb (Nat.eqb (List.length keybits) 32)
                then x509_error "x509: wrong Ed25519 public key size"
                else Ok (key_ed25519 keybits)
              else x509_error "x509: unknown public key algorithm"
          | _, _ => x509_error "asn1: structure error"
          end
      | _ => x509_error "asn1: structure error"
      end
  | Some (48, _, _ :: _) =>
      x509_error "x509: trailing data after ASN.1 of public-key"
  | _ => x509_error "asn1: structure error"
  end.

(** ** [encoding/json]: [Unmarshal] into the event type

    Objects with string members without escapes are read;
    [json.Unmarshal] also reads null, escapes in strings, and members of
    other types.  The general statements hold for every [Library]; this
    decoder is run on the vectors only. *)

(** Modelled from the spec: the generated type
    [GetCustomerExtendedInfoByEmailRow] is not part of [src/]; section 8
    of the specification names its fields [email] and [id]. *)
Record CustomerRow : Type := {
  Email : string;
  Id : string
}.

Definition is_json_space (b : byte) : bool :=
  let v := Z_of_byte b in (v =? 32) || (v =? 9) || (v =? 10) || (v =? 13).

Fixpoint skip_ws (cs : list byte) : list byte :=
  match cs with
  | c :: rest => if is_json_space c then skip_ws rest else cs
  | [] => []
  end.

(** The characters of a string up to its closing quote; escapes are not
    covered. *)
Fixpoint json_string_body (acc : list byte) (cs : list byte)
  : option (list byte * list byte) :=
  match cs with
  | [] => None
  | c :: rest =>
      let v := Z_of_byte c in
      if v =? 34 then Some (rev acc, rest)
      else if (v =? 92) || (v <? 32) then None
      else json_string_body (c :: acc) rest
  end.

Definition json_string (cs : list byte) : option (list byte * list byte) :=
  match expect 34 cs with
  | Some rest => json_string_body [] rest
  | None => None
  end.

Definition to_lower (b : byte) : byte :=
  let v := Z_of_byte b in
  if (65 <=? v) && (v <=? 90) then byte_of_Z (v + 32) else b.

(** Keys match field names without regard to case. *)
Definition set_field (ev : CustomerRow) (key val : list byte) : CustomerRow :=
  let k := string_of_list_byte (map to_lower key) in
  if String.eqb k "email"
  then {| Email := string_of_list_byte val; Id := Id ev |}
  else if String.eqb k "id"
  then {| Email := Email ev; Id := string_of_list_byte val |}
  else ev.

(** The members of an object whose values are strings. *)
Fixpoint json_members (fuel : nat) (ev : CustomerRow) (cs : list byte)
  : option (CustomerRow * list byte) :=
  match fuel with
  | O => None
  | S fuel' =>
      opt_bind (json_string cs) (fun '(key, r) =>
      opt_bind (expect 58 (skip_ws r)) (fun r =>
      opt_bind (json_string (skip_ws r)) (fun '(val, r) =>
      let ev' := set_field ev key val in
      match skip_ws r with
      | c :: rest =>
          if Z_of_byte c =? 44 then json_members fuel' ev' (skip_ws rest)
          else if Z_of_byte c =? 125 then Some (ev', rest)
          else None
      | [] => None
      end)))
  end.

Definition json_error : result CustomerRow :=
  Fail (errors_New "json: cannot unmarshal into the event type").

Definition json_Unmarshal (data : list byte) : result CustomerRow :=
  let zero := {| Email := EmptyString; Id := EmptyString |} in
  match skip_ws data with
  | c :: rest =>
      if Z_of_byte c =? 123 then
        let after :=
          match skip_ws rest with
          | c' :: rest' =>
              if Z_of_byte c' =? 125 then Some (zero, rest')
              else json_members (List.length rest) zero (c' :: rest')
          | [] => None
          end in
        match after with
        | Some (ev, tail) =>
            match skip_ws tail with
            | [] => Ok ev
            | _ => json_error
            end
        | None => json_error
        end
      else json_error
  | [] => Fail (errors_New "unexpected end of JSON input")
  end.

(** ** The model as a [Library] *)

Definition lib : Library :=
  Build_Library CustomerRow time_Parse base64_DecodeString pem_Decode
    x509_ParsePKIXPublicKey sha256_Sum256 rsa_VerifyPKCS1v15 json_Unmarshal.

End GoStd.

(** * Test vectors

    A 1024-bit RSA key pair and a P-256 public key made with OpenSSL, and
    signatures made with [openssl dgst -sha256 -sign] over the bytes
    [timestamp . payload]. *)

Module Vectors.

(** JSON text written with single quotes in place of double quotes. *)
Definition dq (s : string) : list byte :=
  map (fun b => if Byte.eqb b x27 then x22 else b) (list_byte_of_string s).

Definition rsa_key_pem : string :=
"-----BEGIN PUBLIC KEY-----
MIGfMA0GCSqGSIb3DQEBAQUAA4GNADCBiQKBgQDJ7IR04MrZhu9n7LxDn8S/cmgz
m3+QyyUYFgdeaqIx7jqyejtkKIanm8EZfqrCvs1GyFe6QfoYQofUHBatO6HSXA/E
5PViwNviC1Fao6AoBosxxjpsNXhIQPExqMYgfwfiiJr97lDqXtPHt3R9MAbIB9nv
D3A1dyxPsqojxOUWrQIDAQAB
-----END PUBLIC KEY-----".

Definition ec_key_pem : string :=
"-----BEGIN PUBLIC KEY-----
MFkwEwYHKoZIzj0CAQYIKoZIzj0DAQcDQgAE/sHxNUNZQrTR8ge2LcfuWfjCr3fN
5HXI/KMX9inmtUXLqC2j5qCPwHIjFBs+aCwv9msxWcc4iZxICMS+UyJ3rg==
-----END PUBLIC KEY-----".

Definition rsa_private_key : GoStd.rsa_PrivateKey :=
  GoStd.Build_rsa_PrivateKey
    {| rsa_N := 141795781965429923044535230785785868581246464239140754727352620169733223552479351651845411821881607112416748464817123947116492993982648605218399862158790048007300439584214380287031806276675126540349050224021867339144652413617543332834479840327758595425095541542565559785676995697851588509174411553735304353453;
       rsa_E := 65537 |}
    58032050046184008970513205672159979356488589099626673837634496211187337261769705204781995451218524893865175814018415528778530831203787187225047242059036361556106176529558943272193182988797076961022811084997577279195106665088316759916711811268539330634588713549062672009787631314681521116652583732343002426561.

(** 2026-01-06T10:00:00Z, the clock reading of the runs below. *)
Definition now : time.Time := 1767693600 * time.Second.

Definition timestamp : string := "2026-01-06T10:00:00Z".

Definition payload : list byte :=
  dq "{'email':'user@example.com','id':'123'}".

(** Signature over [timestamp . payload]. *)
Definition signature : string :=
  "kVP2OqlpemrqsmuQkGChQb152RYk1rPt4aoz1ZhTCb70H9yVpX6RXss2X1FD9E14rTQxqp5xMiKSxfthzLtydew04JmSp0BrOlrzWw4m4BtpuKCXz7Wpxl59juNL7JZPzJxDCnucocJS6RTJrao3XPYFLgNVZBzhYKy1DSd60OA=".

(** A payload that is not JSON, and the signature over
    [timestamp . text_payload]. *)
Definition text_payload : list byte := list_byte_of_string "not json".

Definition text_signature : string :=
  "YAkT+w4pOeMhu11lkvHfZN5RV0pOjMndB9dk6PXmE5T/z/4oFZ5cYKdn3HMxcfCCWiloFNb+4Z7neeO7dJ2Au74ZwGS6PU5NrJrLuChJjsRm3saaW4KrPQHsc0NpU+Sli0v66LKe3qqHrvtgdGTG5klV3J4bR5LDCmj2xwr0Cp0=".

(** A timestamp 374 years after [now], and the signature over
    [far_timestamp . payload]. *)
Definition far_timestamp : string := "2400-01-01T00:00:00Z".

Definition far_signature : string :=
  "WqAnKB1lS4c6KqGBLXyopwL9yR4EJc0pjBeFHodr0OaOqEZKVXzlteY9izMkevN8cNG2vKkwvC7LnAiJXH9lLD/azeUbo9sq7MudmRLqPl+pH90juqqgtdrZi4FYdZoiKiiiruntPDnw9ZDMP051v06FqCwLHKLc9KM2ZYOt73o=".

(** The timestamp as far before [now] as [far_timestamp] is after it. *)
Definition old_timestamp : string := "1652-01-12T20:00:00Z".

(** The payload, the timestamp and the signature with one byte changed. *)
Definition tampered_payload : list byte :=
  dq "{'email':'user@example.com','id':'124'}".

Definition tampered_timestamp : string := "2026-01-06T10:00:01Z".

Definition tampered_signature : string :=
  "kVP2OqloemrqsmuQkGChQb152RYk1rPt4aoz1ZhTCb70H9yVpX6RXss2X1FD9E14rTQxqp5xMiKSxfthzLtydew04JmSp0BrOlrzWw4m4BtpuKCXz7Wpxl59juNL7JZPzJxDCnucocJS6RTJrao3XPYFLgNVZBzhYKy1DSd60OA=".

(** The signature header with its last character before the padding
    changed in the two bits that belong to no byte. *)
Definition respelled_signature : string :=
  "kVP2OqlpemrqsmuQkGChQb152RYk1rPt4aoz1ZhTCb70H9yVpX6RXss2X1FD9E14rTQxqp5xMiKSxfthzLtydew04JmSp0BrOlrzWw4m4BtpuKCXz7Wpxl59juNL7JZPzJxDCnucocJS6RTJrao3XPYFLgNVZBzhYKy1DSd60OB=".

(** A 512-bit RSA public key made with OpenSSL, and the signature made
    with its private key over [timestamp . payload]. *)
Definition small_key_pem : string :=
"-----BEGIN PUBLIC KEY-----
MFwwDQYJKoZIhvcNAQEBBQADSwAwSAJBALHQ5tDajpxrbtoi0HQBHkltaZBvHtRC
73GLDo1RL+bThfCweYzVnL8bAloECkxJi8c5npcAwzxD3gY+Hdngj+sCAwEAAQ==
-----END PUBLIC KEY-----".

Definition small_key_signature : string :=
  "UXGhLU6CjW1wxW+yC1rQbzHD+nCEHJVenWRc1RkOBqwgaul2hE8FbvXp4Fwt0l/fWXAn/AaW/wkwEwRmXn8p1w==".

(** The number of positions at which two texts of the same length hold
    different bytes. *)
Fixpoint changed_bytes (a b : list byte) : nat :=
  match a, b with
  | x :: a', y :: b' =>
      ((if Byte.eqb x y then 0 else 1) + changed_bytes a' b')%nat
  | _, _ => 0%nat
  end.

(** What the vectors decode to. *)
Definition public_key : rsa_PublicKey :=
  GoStd.rsa_PublicKey_of rsa_private_key.

Definition decoded (s : string) : list byte :=
  match GoStd.base64_DecodeString s with
  | Ok bs => bs
  | Fail _ => []
  end.

Definition block_of (pem : string) : pem_Block :=
  match GoStd.pem_Decode (list_byte_of_string pem) with
  | Some b => b
  | None => {| pem_Type := EmptyString; pem_Bytes := [] |}
  end.

Definition instant (s : string) : time.Time :=
  match GoStd.time_Parse time.RFC3339 s with
  | Ok t => t
  | Fail _ => 0
  end.

Definition key_of (pem : string) : crypto_PublicKey :=
  match GoStd.x509_ParsePKIXPublicKey (pem_Bytes (block_of pem)) with
  | Ok k => k
  | Fail _ => key_rsa {| rsa_N := 0; rsa_E := 0 |}
  end.

Definition event : GoStd.CustomerRow :=
  GoStd.Build_CustomerRow "user@example.com" "123".

End Vectors.

(** * A remote for the lookups

    A stand-in for the generated client and its transport: every request
    is answered with status 200 and a body that decodes to the envelope
    given for its endpoint. *)

Module Remote.

Record Product : Type := {
  product_id : string;
  entitlement_id : string;
  product_name : string
}.

Record Entitlement : Type := {
  id : string;
  entitlement_name : string
}.

Record Subscription : Type := {
  subscribed_product : string;
  customer : string
}.

Definition ok_response : result http_Response :=
  Ok {| StatusCode := http_StatusOK; Body := Ok [] |}.

Definition serving
    (subscription : envelope Subscription)
    (products : envelope (slice Product))
    (entitlements : envelope (slice Entitlement)) : Generated :=
  {| ProductRef := string;
     EntitlementRef := string;
     ProductRef_eq_dec := string_dec;
     EntitlementRef_eq_dec := string_dec;
     TenantProduct := Product;
     TenantEntitlement := Entitlement;
     StorableSubscription := Subscription;
     TenantProduct_ProductId := product_id;
     TenantProduct_EntitlementId := entitlement_id;
     TenantEntitlement_Id := id;
     StorableSubscription_ProductId := subscribed_product;
     GetTenantProducts := ok_response;
     GetTenantEntitlementsByEnvironment := fun _ => ok_response;
     PostTenantSubscriptionsActive := fun _ => ok_response;
     json_Unmarshal_products := fun _ => Ok products;
     json_Unmarshal_entitlements := fun _ => Ok entitlements;
     json_Unmarshal_subscription := fun _ => Ok subscription |}.

Definition basic : Product :=
  {| product_id := "basic"; entitlement_id := "ent-basic";
     product_name := "Basic" |}.

Definition pro : Product :=
  {| product_id := "pro"; entitlement_id := "ent-pro";
     product_name := "Pro" |}.

Definition ent_basic : Entitlement :=
  {| id := "ent-basic"; entitlement_name := "Basic features" |}.

Definition ent_pro : Entitlement :=
  {| id := "ent-pro"; entitlement_name := "Pro features" |}.

Definition sub_pro : Subscription :=
  {| subscribed_product := "pro"; customer := "user@example.com" |}.

Definition sub_gone : Subscription :=
  {| subscribed_product := "legacy"; customer := "user@example.com" |}.

Definition data {D} (d : D) : envelope D := {| Data := Some d; Error := None |}.

Definition no_data {D} : envelope D := {| Data := None; Error := None |}.

Definition failure {D} (text : string) : envelope D :=
  {| Data := None; Error := Some text |}.

End Remote.

(** * The remaining methods of the client *)

(** ** The customer endpoints (sdk.go, lines 193-258) *)

(** The part of the generated package the customer endpoints use (not
    part of [src/]): the body type of the customer list, of which only
    the [Error] field is read, the row type of a customer, the two
    client methods with the transport behind them, and [json.Unmarshal]
    at the two body types.  [Limit] is a pointer to an [int64] and
    [Cursor] a pointer to a string. *)
Record GeneratedCustomers : Type := {
  ListCustomerResponseBody : Type;
  ListCustomerResponseBody_Error : ListCustomerResponseBody -> option string;
  GetCustomerExtendedInfoByEmailRow : Type;
  GetTenantServerCustomers : option Z -> option string -> result http_Response;
  PostTenantServerCustomer : string -> result http_Response;
  json_Unmarshal_customers : list byte -> result ListCustomerResponseBody;
  json_Unmarshal_customer :
    list byte -> result (envelope GetCustomerExtendedInfoByEmailRow)
}.

(** The requests the customer endpoints send. *)
Inductive customercall : Type :=
| call_GetTenantServerCustomers (limit : option Z) (cursor : option string)
| call_PostTenantServerCustomer (customerEmail : string).

Section Customers.
Context (G : GeneratedCustomers).

(** The result is a pointer to the decoded body, never nil without an
    error. *)
Definition ListCustomers (limit : option Z) (cursor : option string)
  : M customercall (ListCustomerResponseBody G) :=
  resp <- call (call_GetTenantServerCustomers limit cursor)
               (GetTenantServerCustomers G limit cursor) ;;
  if negb (StatusCode resp =? http_StatusOK)
  then fail (fmt_Errorf_d "unexpected status code: %d" (StatusCode resp))
  else
    body <- lift (Body resp) ;;
    result <- lift (json_Unmarshal_customers G body) ;;
    match error_string (ListCustomerResponseBody_Error G result) with
    | Some s => fail (errors_New s)
    | None => ret result
    end.

Definition GetCustomerInfo (customerEmail : string)
  : M customercall (option (GetCustomerExtendedInfoByEmailRow G)) :=
  resp <- call (call_PostTenantServerCustomer customerEmail)
               (PostTenantServerCustomer G customerEmail) ;;
  if negb (StatusCode resp =? http_StatusOK)
  then fail (fmt_Errorf_d "unexpected status code: %d" (StatusCode resp))
  else
    respBody <- lift (Body resp) ;;
    result <- lift (json_Unmarshal_customer G respBody) ;;
    match error_string (Error result) with
    | Some s => fail (errors_New s)
    | None => ret (Data result)
    end.

End Customers.

(** ** [NewCrosspayServerClient] (sdk.go, lines 25-44) *)

(** [http.Header]: the values of each field, under the canonical
    spelling of its name. *)
Definition http_Header : Type := list (string * list string).

(** A byte a header field name may hold (a token character). *)
Definition is_token_byte (b : byte) : bool :=
  let v := GoStd.Z_of_byte b in
  ((48 <=? v) && (v <=? 57)) || ((65 <=? v) && (v <=? 90))
  || ((97 <=? v) && (v <=? 122))
  || existsb (Z.eqb v) [33; 35; 36; 37; 38; 39; 42; 43; 45; 46; 94; 95; 96;
                        124; 126].

(** Upper case for the first letter and every letter after a hyphen,
    lower case for the others. *)
Fixpoint canonical_bytes (upper : bool) (bs : list byte) : list byte :=
  match bs with
  | [] => []
  | b :: rest =>
      let v := GoStd.Z_of_byte b in
      let b' :=
        if upper && (97 <=? v) && (v <=? 122) then GoStd.byte_of_Z (v - 32)
        else if negb upper && (65 <=? v) && (v <=? 90)
        then GoStd.byte_of_Z (v + 32)
        else b in
      b' :: canonical_bytes (v =? 45) rest
  end.

(** [textproto.CanonicalMIMEHeaderKey]: a name with a byte that is not a
    token character is returned as it is. *)
Definition CanonicalMIMEHeaderKey (s : string) : string :=
  let bs := list_byte_of_string s in
  if forallb is_token_byte bs
  then string_of_list_byte (canonical_bytes true bs)
  else s.

(** [h.Set(key, value)]: the field holds the one value. *)
Definition Header_Set (h : http_Header) (key value : string) : http_Header :=
  let k := CanonicalMIMEHeaderKey key in
  (k, [value]) :: filter (fun kv => negb (String.eqb (fst kv) k)) h.

(** [h.Values(key)] and [h.Get(key)]. *)
Definition Header_Values (h : http_Header) (key : string) : list string :=
  let k := CanonicalMIMEHeaderKey key in
  match find (fun kv => String.eqb (fst kv) k) h with
  | Some kv => snd kv
  | None => []
  end.

Definition Header_Get (h : http_Header) (key : string) : string :=
  match Header_Values h key with
  | v :: _ => v
  | [] => EmptyString
  end.

(** A [RequestEditorFn], on the header of the request it is given: the
    header it leaves and the error it returns. *)
Definition RequestEditorFn : Type := http_Header -> http_Header * option error.

(** The struct [CrosspayServerClient], over the generated [Client]. *)
Record CrosspayServerClient (Client : Type) : Type := {
  client : Client;
  apiKey : string
}.
Arguments client {Client} c.
Arguments apiKey {Client} c.

Section Constructor.
Context {Client : Type}.

(** The generated [NewClient(url, WithRequestEditorFn(fn))]. *)
Context (NewClient : string -> RequestEditorFn -> result Client).

(** Lines 32-35: the editor given to the client. *)
Definition api_key_editor (apiKey : string) : RequestEditorFn :=
  fun header => (Header_Set header "api-key" apiKey, None).

(** Lines 27-30: the URL the client is made for. *)
Definition base_url (baseURL : list string) : string :=
  let url := "https://api.crosspay.dev"%string in
  match baseURL with
  | b0 :: _ => if negb (String.eqb b0 EmptyString) then b0 else url
  | [] => url
  end.

Definition NewCrosspayServerClient (apiKey : string) (baseURL : list string)
  : result (CrosspayServerClient Client) :=
  let url := base_url baseURL in
  match NewClient url (api_key_editor apiKey) with
  | Fail err => Fail err
  | Ok client => Ok {| client := client; apiKey := apiKey |}
  end.

End Constructor.

(** ** The order of the calls of [ConstructWebhookEvent] *)

(** The position of a call in the source of the method. *)
Definition stage_of (c : libcall) : nat :=
  match c with
  | call_time_Parse _ _ => 0
  | call_time_Since _ => 1
  | call_base64_DecodeString _ => 2
  | call_pem_Decode _ => 3
  | call_x509_ParsePKIXPublicKey _ => 4
  | call_sha256_Sum256 _ => 5
  | call_rsa_VerifyPKCS1v15 _ _ _ _ => 6
  | call_json_Unmarshal _ => 7
  end.

(** A run that made [n] calls and returned an error: it stopped after
    its [n]-th call. *)
Definition stops_after {C A : Type} (run : Traced.M C A) (n : nat) : Prop :=
  List.length (log_of run) = n /\ exists e, outcome run = Fail e.

(** A library that differs from [L] in the label of the PEM blocks it
    finds. *)
Definition relabelled (L : Library) (label : pem_Block -> string) : Library :=
  Build_Library (Event L) (time_Parse L) (base64_StdEncoding_DecodeString L)
    (fun data =>
       match pem_Decode L data with
       | Some b => Some {| pem_Type := label b; pem_Bytes := pem_Bytes b |}
       | None => None
       end)
    (x509_ParsePKIXPublicKey L) (sha256_Sum256 L) (rsa_VerifyPKCS1v15 L)
    (json_Unmarshal L).

(** ** A remote for the customer endpoints *)

Module RemoteCustomers.

Record Page : Type := {
  page_error : option string;
  emails : list string;
  next_cursor : option string
}.

Record Row : Type := {
  row_email : string;
  row_id : string
}.

(** Every request is answered with the given status and a body that
    decodes to the value given for its endpoint. *)
Definition serving (status : Z) (page : Page) (row : envelope Row)
  : GeneratedCustomers :=
  {| ListCustomerResponseBody := Page;
     ListCustomerResponseBody_Error := page_error;
     GetCustomerExtendedInfoByEmailRow := Row;
     GetTenantServerCustomers :=
       fun _ _ => Ok {| StatusCode := status; Body := Ok [] |};
     PostTenantServerCustomer :=
       fun _ => Ok {| StatusCode := status; Body := Ok [] |};
     json_Unmarshal_customers := fun _ => Ok page;
     json_Unmarshal_customer := fun _ => Ok row |}.

Definition first_page : Page :=
  {| page_error := None; emails := ["a@example.com"%string; "b@example.com"%string];
     next_cursor := Some "c2"%string |}.

Definition user_row : Row :=
  {| row_email := "user@example.com"; row_id := "123" |}.

End RemoteCustomers.

(** A timestamp header without a dot, such as an RFC 3339 time without a
    fraction of a second. *)
Definition dot_free (timestampHeader : string) : Prop :=
  forallb (fun b => negb (Byte.eqb b x2e))
    (list_byte_of_string timestampHeader) = true.

(** ** A remote that answers every lookup alike *)

Module RemoteStatus.

(** Every request gets the response [resp]; a body that is read decodes
    to an envelope without data and without error. *)
Definition answering (resp : result http_Response) : Generated :=
  {| ProductRef := string;
     EntitlementRef := string;
     ProductRef_eq_dec := string_dec;
     EntitlementRef_eq_dec := string_dec;
     TenantProduct := Remote.Product;
     TenantEntitlement := Remote.Entitlement;
     StorableSubscription := Remote.Subscription;
     TenantProduct_ProductId := Remote.product_id;
     TenantProduct_EntitlementId := Remote.entitlement_id;
     TenantEntitlement_Id := Remote.id;
     StorableSubscription_ProductId := Remote.subscribed_product;
     GetTenantProducts := resp;
     GetTenantEntitlementsByEnvironment := fun _ => resp;
     PostTenantSubscriptionsActive := fun _ => resp;
     json_Unmarshal_products := fun _ => Ok Remote.no_data;
     json_Unmarshal_entitlements := fun _ => Ok Remote.no_data;
     json_Unmarshal_subscription := fun _ => Ok Remote.no_data |}.

Definition unavailable : result http_Response :=
  Ok {| StatusCode := 503; Body := Ok [] |}.

Definition refused : result http_Response :=
  Fail (errors_New "dial tcp: connection refused").

End RemoteStatus.

(** ** How an endpoint method treats the response to its request *)

Section Responses.
Context {C A E : Type}.
Context (request : C) (transport : result http_Response)
  (unmarshal : list byte -> result E) (run : M C A).

(** The response was read and decoded to [decoded]. *)
Definition decodes_to (decoded : E) : Prop :=
  exists resp body,
    transport = Ok resp /\ StatusCode resp = http_StatusOK /\
    Body resp = Ok body /\ unmarshal body = Ok decoded.

(** A status other than 200 is reported with its code, after the one
    request. *)
Definition reports_status : Prop :=
  forall resp,
    transport = Ok resp -> StatusCode resp <> http_StatusOK ->
    run = ([request],
           Fail (fmt_Errorf_d "unexpected status code: %d" (StatusCode resp))).

(** An error of the transport, of reading the body or of decoding it is
    returned as it is, after the one request. *)
Definition passes_errors : Prop :=
  (forall e, transport = Fail e -> run = ([request], Fail e)) /\
  (forall resp e,
     transport = Ok resp -> StatusCode resp = http_StatusOK ->
     Body resp = Fail e -> run = ([request], Fail e)) /\
  (forall resp body e,
     transport = Ok resp -> StatusCode resp = http_StatusOK ->
     Body resp = Ok body -> unmarshal body = Fail e ->
     run = ([request], Fail e)).

End Responses.

(** [x] is the first element of [l] that has the property [P]. *)
Definition first_with {A} (P : A -> Prop) (l : list A) (x : A) : Prop :=
  exists before after,
    l = before ++ x :: after /\ P x /\ forall y, In y before -> ~ P y.

(** [errors.Unwrap]: the error wrapped with [%w], if there is one. *)
Definition errors_Unwrap (e : error) : option error :=
  match e with
  | fmt_Errorf _ wrapped => Some wrapped
  | errors_New _ | fmt_Errorf_d _ _ => None
  end.

(** * Proofs *)

(** ** Facts about the window check *)

Lemma wrap64_small z : - 2 ^ 63 <= z < 2 ^ 63 -> time.wrap64 z = z.
Proof.
  intros H. unfold time.wrap64.
  rewrite Z.mod_small by lia. lia.
Qed.

Lemma neg_exact d : time.minDuration < d <= time.maxDuration ->
  time.neg d = - d.
Proof.
  unfold time.neg, time.minDuration, time.maxDuration. intros H.
  apply wrap64_small. lia.
Qed.

Lemma Sub_exact t u :
  time.minDuration <= t - u <= time.maxDuration -> time.Sub t u = t - u.
Proof.
  intros [Hlo Hhi]. unfold time.Sub. cbv zeta.
  destruct (Z.ltb_spec (t - u) time.minDuration); [lia|].
  destruct (Z.ltb_spec time.maxDuration (t - u)); [lia|]. reflexivity.
Qed.

(** On a duration other than the minimum, the check is the comparison of
    the absolute value with five minutes. *)
Lemma check_window_abs d :
  time.minDuration < d <= time.maxDuration ->
  check_window d =
    if 300000000000 <? Z.abs d
    then Fail (errors_New "timestamp is outside the 5-minute window")
    else Ok tt.
Proof.
  intros H. unfold check_window. change (5 * time.Minute) with 300000000000.
  destruct (Z.ltb_spec d 0).
  - rewrite neg_exact by exact H. rewrite Z.abs_neq by lia. reflexivity.
  - rewrite Z.abs_eq by lia. reflexivity.
Qed.

(** While the difference of the two instants fits a [Duration] with room
    to negate it, the check agrees with the specification's condition. *)
Lemma check_window_in_range now t :
  Z.abs (now - t) < 2 ^ 63 ->
  (check_window (time.Since now t) = Ok tt <-> within_skew now t).
Proof.
  intros Hr. unfold time.Since, within_skew, maxClockSkew.
  assert (Hm : time.minDuration < now - t <= time.maxDuration)
    by (unfold time.minDuration, time.maxDuration; lia).
  rewrite Sub_exact by lia.
  rewrite check_window_abs by exact Hm.
  change (5 * time.Minute) with 300000000000.
  destruct (Z.ltb_spec 300000000000 (Z.abs (now - t))); split;
    intros; try lia; try discriminate; reflexivity.
Qed.

(** A timestamp 2^63 nanoseconds or more after the clock reading: the
    difference is the minimum duration, which its negation leaves
    unchanged, and the check passes. *)
Lemma check_window_far_future now t :
  2 ^ 63 <= t - now -> check_window (time.Since now t) = Ok tt.
Proof.
  intros H. unfold time.Since, time.Sub. cbv zeta.
  destruct (Z.ltb_spec (now - t) time.minDuration); [reflexivity|].
  destruct (Z.ltb_spec time.maxDuration (now - t));
    [unfold time.maxDuration in *; lia|].
  replace (now - t) with time.minDuration
    by (unfold time.minDuration in *; lia).
  reflexivity.
Qed.

(** As far before the clock reading, the check fails. *)
Lemma check_window_far_past now t :
  2 ^ 63 <= now - t ->
  check_window (time.Since now t)
  = Fail (errors_New "timestamp is outside the 5-minute window").
Proof.
  intros H. unfold time.Since, time.Sub. cbv zeta.
  destruct (Z.ltb_spec (now - t) time.minDuration);
    [unfold time.minDuration in *; lia|].
  destruct (Z.ltb_spec time.maxDuration (now - t));
    [reflexivity|unfold time.maxDuration in *; lia].
Qed.

Lemma within_skew_passes now t :
  within_skew now t -> check_window (time.Since now t) = Ok tt.
Proof.
  intros H. apply check_window_in_range; [|exact H].
  unfold within_skew, maxClockSkew in H.
  change (5 * time.Minute) with 300000000000 in H. lia.
Qed.

(** ** Runs of [ConstructWebhookEvent] *)

Section WebhookFacts.
Context (L : Library).

Ltac unfold_run :=
  unfold ConstructWebhookEvent, Traced.bind, Traced.call, Traced.fail,
    Traced.lift,
    Traced.ret, Traced.log_of, Traced.outcome, or_return, digest in *.

(** The run of an input that reaches the signature check. *)
Lemma run_from_verification now key payload sigH tsH sig pub :
  reaches_verification L now key sigH tsH sig pub ->
  exists pre,
    forallb (fun c => negb (is_crypto c || is_decode c)) pre = true /\
    ConstructWebhookEvent L now key payload sigH tsH =
      let hash := digest L tsH payload in
      let verify := call_rsa_VerifyPKCS1v15 pub crypto_SHA256 hash sig in
      let sha := call_sha256_Sum256 (signed_data tsH payload) in
      match rsa_VerifyPKCS1v15 L pub crypto_SHA256 hash sig with
      | Some _ =>
          (pre ++ [sha; verify],
           Fail (errors_New "signature verification failed"))
      | None =>
          (pre ++ [sha; verify; call_json_Unmarshal payload],
           or_return (json_Unmarshal L payload)
                     (fmt_Errorf "failed to parse webhook payload: %w"))
      end.
Proof.
  intros (t & block & Hp & Hw & Hs & Hb & Hk).
  exists [call_time_Parse time.RFC3339 tsH; call_time_Since t;
          call_base64_DecodeString sigH;
          call_pem_Decode (list_byte_of_string key);
          call_x509_ParsePKIXPublicKey (pem_Bytes block)].
  split; [reflexivity|].
  unfold_run. rewrite Hp, Hw, Hs, Hb, Hk. cbn.
  destruct (rsa_VerifyPKCS1v15 L pub crypto_SHA256 _ sig); reflexivity.
Qed.

(** A run that does not reach the signature check makes no digest, no
    signature check and no decoding, and fails. *)
Lemma run_before_verification now key payload sigH tsH :
  (forall sig pub, ~ reaches_verification L now key sigH tsH sig pub) ->
  forallb (fun c => negb (is_crypto c || is_decode c))
    (log_of (ConstructWebhookEvent L now key payload sigH tsH)) = true /\
  exists e, outcome (ConstructWebhookEvent L now key payload sigH tsH) = Fail e.
Proof.
  intros Hn. unfold_run.
  destruct (time_Parse L time.RFC3339 tsH) as [t|] eqn:Hp; cbn; [|eauto].
  destruct (check_window (time.Since now t)) as [[]|] eqn:Hw; cbn; [|eauto].
  destruct (base64_StdEncoding_DecodeString L sigH) as [sig|] eqn:Hs; cbn;
    [|eauto].
  destruct (pem_Decode L (list_byte_of_string key)) as [block|] eqn:Hb; cbn;
    [|eauto].
  destruct (x509_ParsePKIXPublicKey L (pem_Bytes block)) as [pub|] eqn:Hk; cbn;
    [|eauto].
  destruct pub as [pub| | | |]; cbn; eauto.
  exfalso. apply (Hn sig pub). exists t, block. auto.
Qed.

(** Whether an input reaches the signature check is decided by running
    the five stages before it. *)
Lemma reaches_verification_dec now key sigH tsH :
  (exists sig pub, reaches_verification L now key sigH tsH sig pub) \/
  (forall sig pub, ~ reaches_verification L now key sigH tsH sig pub).
Proof.
  unfold reaches_verification.
  destruct (time_Parse L time.RFC3339 tsH) as [t|] eqn:Hp;
    [|right; intros ? ? (? & ? & ? & _); discriminate].
  destruct (check_window (time.Since now t)) as [[]|] eqn:Hw;
    [|right; intros ? ? (? & ? & H1 & H2 & _); congruence].
  destruct (base64_StdEncoding_DecodeString L sigH) as [sig|] eqn:Hs;
    [|right; intros ? ? (? & ? & _ & _ & ? & _); discriminate].
  destruct (pem_Decode L (list_byte_of_string key)) as [block|] eqn:Hb;
    [|right; intros ? ? (? & ? & _ & _ & _ & ? & _); discriminate].
  destruct (x509_ParsePKIXPublicKey L (pem_Bytes block)) as [pub|] eqn:Hk;
    [|right; intros ? ? (? & ? & _ & _ & _ & H1 & H2); congruence].
  destruct pub as [pub| | | |];
    try (right; intros ? ? (? & ? & _ & _ & _ & H1 & H2); congruence).
  left. exists sig, pub, t, block. auto.
Qed.

End WebhookFacts.

(** ** The model of [crypto/sha256]: constants and test vectors *)

Example sha256_constants :
  nth 0 GoStd.sha256_K 0 = 0x428a2f98 /\
  nth 63 GoStd.sha256_K 0 = 0xc67178f2 /\
  List.length GoStd.sha256_K = 64%nat /\
  nth 0 GoStd.sha256_H0 0 = 0x6a09e667 /\
  nth 7 GoStd.sha256_H0 0 = 0x5be0cd19.
Proof. vm_compute. repeat split. Qed.

(** The digests of the empty message and of "abc" (FIPS 180-4 examples). *)
Example sha256_vectors :
  GoStd.OS2IP (GoStd.sha256_Sum256 [])
  = 0xe3b0c44298fc1c149afbf4c8996fb92427ae41e4649b934ca495991b7852b855 /\
  GoStd.OS2IP (GoStd.sha256_Sum256 (list_byte_of_string "abc"))
  = 0xba7816bf8f01cfea414140de5dae2223b00361a396177a9cb410ff61f20015ad.
Proof. vm_compute. split; reflexivity. Qed.

(** ** The model of [crypto/rsa]: what is signed verifies *)

Module GoStdFacts.
Import GoStd.

Lemma Z_of_byte_range b : 0 <= Z_of_byte b < 256.
Proof.
  unfold Z_of_byte. pose proof (Byte.to_N_bounded b). lia.
Qed.

Lemma Z_of_byte_of_Z z : Z_of_byte (byte_of_Z z) = z mod 256.
Proof.
  unfold byte_of_Z, Z_of_byte.
  pose proof (Z.mod_pos_bound z 256 ltac:(lia)) as Hb.
  destruct (Byte.of_N (Z.to_N (z mod 256))) as [b|] eqn:E.
  - apply Byte.to_of_N in E. rewrite E. lia.
  - apply Byte.of_N_None_iff in E. lia.
Qed.

Lemma byte_of_Z_of_byte b : byte_of_Z (Z_of_byte b) = b.
Proof.
  unfold byte_of_Z, Z_of_byte.
  pose proof (Byte.to_N_bounded b).
  rewrite Z.mod_small by lia. rewrite N2Z.id, Byte.of_to_N. reflexivity.
Qed.

Lemma OS2IP_acc_app acc bs cs :
  OS2IP_acc acc (bs ++ cs) = OS2IP_acc (OS2IP_acc acc bs) cs.
Proof.
  revert acc. induction bs as [|b bs IH]; intros acc; cbn; [reflexivity|].
  apply IH.
Qed.

Lemma OS2IP_snoc bs b : OS2IP (bs ++ [b]) = OS2IP bs * 256 + Z_of_byte b.
Proof. unfold OS2IP. rewrite OS2IP_acc_app. reflexivity. Qed.

Lemma I2OSP_length k z : List.length (I2OSP k z) = k.
Proof.
  revert z. induction k as [|k IH]; intros z; cbn; [reflexivity|].
  rewrite length_app, IH. cbn. lia.
Qed.

(** Reading back the [k] bytes written for [z] gives [z], when it fits. *)
Lemma OS2IP_I2OSP k z :
  0 <= z < 256 ^ Z.of_nat k -> OS2IP (I2OSP k z) = z.
Proof.
  revert z. induction k as [|k IH]; intros z Hz.
  - cbn in *. unfold OS2IP. cbn. lia.
  - cbn [I2OSP]. rewrite OS2IP_snoc, Z_of_byte_of_Z.
    rewrite Nat2Z.inj_succ, Z.pow_succ_r in Hz by lia.
    rewrite IH.
    + pose proof (Z.div_mod z 256 ltac:(lia)). lia.
    + split; [apply Z.div_pos; lia|].
      apply Z.div_lt_upper_bound; lia.
Qed.

Lemma OS2IP_range bs : 0 <= OS2IP bs < 256 ^ Z.of_nat (List.length bs).
Proof.
  induction bs as [|b bs IH] using rev_ind.
  - unfold OS2IP. cbn. lia.
  - rewrite OS2IP_snoc, length_app. cbn [List.length].
    replace (Z.of_nat (List.length bs + 1)) with (Z.succ (Z.of_nat (List.length bs)))
      by lia.
    rewrite Z.pow_succ_r by lia.
    pose proof (Z_of_byte_range b). lia.
Qed.

(** Writing back the integer read from [bs] on as many bytes gives [bs]. *)
Lemma I2OSP_OS2IP bs : I2OSP (List.length bs) (OS2IP bs) = bs.
Proof.
  induction bs as [|b bs IH] using rev_ind; [reflexivity|].
  rewrite length_app. cbn [List.length].
  replace (List.length bs + 1)%nat with (S (List.length bs)) by lia.
  cbn [I2OSP]. rewrite OS2IP_snoc.
  pose proof (Z_of_byte_range b) as Hb.
  replace ((OS2IP bs * 256 + Z_of_byte b) / 256) with (OS2IP bs).
  - rewrite IH. f_equal. f_equal.
    rewrite <- (byte_of_Z_of_byte b) at 2. unfold byte_of_Z.
    rewrite Z.add_comm, Z.mod_add by lia. reflexivity.
  - rewrite Z.add_comm, Z.div_add by lia.
    rewrite Z.div_small by lia. lia.
Qed.

Lemma pow_mod_range b e n : 0 < n -> 0 <= pow_mod b e n < n.
Proof.
  intros Hn. unfold pow_mod.
  destruct e as [|p|p]; try (apply Z.mod_pos_bound; exact Hn).
  destruct p; cbn [pow_mod_pos]; rewrite BigZ.spec_modulo;
    rewrite (BigZ.spec_of_Z n); apply Z.mod_pos_bound; exact Hn.
Qed.

(** The modulus fits the number of bytes [Size] reports. *)
Lemma modulus_fits pub :
  0 < rsa_N pub -> rsa_N pub < 256 ^ Z.of_nat (rsa_Size pub).
Proof.
  intros Hn. unfold rsa_Size.
  pose proof (Z.log2_spec _ Hn) as [_ Hlt].
  pose proof (Z.log2_nonneg (rsa_N pub)) as Hl.
  set (l := Z.log2 (rsa_N pub)) in *.
  assert (Hq : 0 <= (l + 8) / 8) by (apply Z.div_pos; lia).
  rewrite Z2Nat.id by exact Hq.
  change 256 with (2 ^ 8). rewrite <- Z.pow_mul_r by lia.
  eapply Z.lt_le_trans; [exact Hlt|].
  apply Z.pow_le_mono_r; [lia|].
  pose proof (Z.div_mod (l + 8) 8 ltac:(lia)).
  pose proof (Z.mod_pos_bound (l + 8) 8 ltac:(lia)). lia.
Qed.

Lemma pkcs1v15ConstructEM_length pub h hashed em :
  pkcs1v15ConstructEM pub h hashed = Some em ->
  List.length em = rsa_Size pub.
Proof.
  unfold pkcs1v15ConstructEM. destruct h; try discriminate.
  destruct (negb (Nat.eqb (List.length hashed) 32)); [discriminate|].
  destruct (Nat.ltb_spec (rsa_Size pub)
              (List.length sha256_prefix + List.length hashed + 11));
    [discriminate|].
  intros [= <-]. unfold sha256_prefix in *.
  cbn [List.length] in *. rewrite length_app, repeat_length.
  cbn [List.length]. lia.
Qed.

Lemma bytes_eqb_refl bs : bytes_eqb bs bs = true.
Proof.
  unfold bytes_eqb. destruct (list_eq_dec Byte.byte_eq_dec bs bs); congruence.
Qed.

(** A signature returned by [rsa_SignPKCS1v15] passes
    [rsa_VerifyPKCS1v15] under the public half of the key. *)
Lemma rsa_sign_verify priv h hashed sig :
  rsa_SignPKCS1v15 priv h hashed = Ok sig ->
  rsa_VerifyPKCS1v15 (rsa_PublicKey_of priv) h hashed sig = None.
Proof.
  unfold rsa_SignPKCS1v15, rsa_VerifyPKCS1v15.
  set (pub := rsa_PublicKey_of priv).
  destruct ((rsa_N pub <=? 0) || (rsa_E pub <? 2)) eqn:Hg; [discriminate|].
  apply orb_false_iff in Hg as [Hn _]. apply Z.leb_gt in Hn.
  destruct (checkPublicKeySize pub); [discriminate|].
  destruct (pkcs1v15ConstructEM pub h hashed) as [em|] eqn:Hem;
    [|discriminate].
  set (c := OS2IP em). set (m := pow_mod c (rsa_D priv) (rsa_N pub)).
  destruct (Z.eqb_spec (pow_mod m (rsa_E pub) (rsa_N pub)) c) as [Hc|];
    [|discriminate].
  intros [= <-].
  pose proof (pow_mod_range c (rsa_D priv) (rsa_N pub) Hn) as Hm. fold m in Hm.
  pose proof (modulus_fits pub Hn) as Hfit.
  rewrite I2OSP_length, Nat.eqb_refl. cbn [negb].
  rewrite OS2IP_I2OSP by lia.
  destruct (Z.leb_spec (rsa_N pub) m); [lia|].
  rewrite Hc. unfold c.
  rewrite <- (pkcs1v15ConstructEM_length _ _ _ _ Hem).
  rewrite I2OSP_OS2IP, bytes_eqb_refl. reflexivity.
Qed.

Lemma bytes_eqb_eq a b : bytes_eqb a b = true -> a = b.
Proof.
  unfold bytes_eqb. destruct (list_eq_dec Byte.byte_eq_dec a b);
    [auto|discriminate].
Qed.

(** What [rsa_VerifyPKCS1v15] accepts for a SHA-256 digest: the digest
    has 32 bytes, and the signature opens to the encoded message made
    from it. *)
Lemma rsa_verify_accepts pub hashed sig :
  rsa_VerifyPKCS1v15 pub crypto_SHA256 hashed sig = None ->
  List.length hashed = 32%nat /\
  I2OSP (rsa_Size pub) (pow_mod (OS2IP sig) (rsa_E pub) (rsa_N pub))
  = [x00; x01] ++ repeat xff (rsa_Size pub - 51 - 3) ++ [x00]
    ++ sha256_prefix ++ hashed.
Proof.
  unfold rsa_VerifyPKCS1v15.
  destruct ((rsa_N pub <=? 0) || (rsa_E pub <? 2)); [discriminate|].
  destruct (checkPublicKeySize pub); [discriminate|].
  destruct (negb (Nat.eqb (rsa_Size pub) (List.length sig))); [discriminate|].
  destruct (rsa_N pub <=? OS2IP sig); [discriminate|].
  unfold pkcs1v15ConstructEM.
  destruct (Nat.eqb_spec (List.length hashed) 32) as [Hlen|];
    cbn [negb]; [|discriminate].
  rewrite Hlen. change (List.length sha256_prefix + 32)%nat with 51%nat.
  destruct (rsa_Size pub <? 51 + 11)%nat; [discriminate|].
  destruct (bytes_eqb _ _) eqn:Heq; [|discriminate].
  intros _. split; [reflexivity|]. apply bytes_eqb_eq. exact Heq.
Qed.

(** A signature is accepted under a key for one digest at most. *)
Lemma rsa_verify_one_digest : accepts_one_digest lib.
Proof.
  intros pub hashed hashed' sig H H'.
  apply rsa_verify_accepts in H as [_ H].
  apply rsa_verify_accepts in H' as [_ H'].
  rewrite H in H'.
  repeat apply app_inv_head in H'. exact H'.
Qed.

End GoStdFacts.

(** ** Claims on [ConstructWebhookEvent] *)

Section WebhookClaims.
Context (L : Library).

Lemma early_calls pre c :
  forallb (fun c => negb (is_crypto c || is_decode c)) pre = true ->
  In c pre -> is_crypto c = false /\ is_decode c = false.
Proof.
  intros Hall Hin. rewrite forallb_forall in Hall.
  specialize (Hall c Hin). apply negb_true_iff, orb_false_iff in Hall.
  exact Hall.
Qed.

Lemma or_return_Ok {A} (r : result A) f a : or_return r f = Ok a -> r = Ok a.
Proof. destruct r; cbn; congruence. Qed.

(** Every digest, signature check or decoding in the log belongs to an
    input that reached the signature check. *)
Lemma late_call_reaches now key payload sigH tsH c :
  In c (log_of (ConstructWebhookEvent L now key payload sigH tsH)) ->
  is_crypto c || is_decode c = true ->
  exists sig pub, reaches_verification L now key sigH tsH sig pub.
Proof.
  intros Hin Hc.
  destruct (reaches_verification_dec L now key sigH tsH) as [H|H]; [exact H|].
  destruct (run_before_verification L now key payload sigH tsH H) as [Hall _].
  destruct (early_calls _ c Hall Hin) as [H1 H2].
  rewrite H1, H2 in Hc. discriminate.
Qed.

(** C1. [ConstructWebhookEvent] returns an event only for an input whose
    timestamp passed the window check and whose signature passed the
    check against the digest of [timestamp . payload], and the event is
    the decoding of the payload; the payload is decoded only in a run
    whose log shows, just before the decoding, the signature check that
    succeeded, so that no run decodes or returns unverified bytes. *)
Theorem event_only_after_verification now key payload sigH tsH :
  let run := ConstructWebhookEvent L now key payload sigH tsH in
  (forall ev, outcome run = Ok ev ->
     exists sig pub,
       reaches_verification L now key sigH tsH sig pub /\
       rsa_VerifyPKCS1v15 L pub crypto_SHA256 (digest L tsH payload) sig
         = None /\
       json_Unmarshal L payload = Ok ev) /\
  (forall d, In (call_json_Unmarshal d) (log_of run) ->
     d = payload /\
     exists sig pub pre,
       reaches_verification L now key sigH tsH sig pub /\
       rsa_VerifyPKCS1v15 L pub crypto_SHA256 (digest L tsH payload) sig
         = None /\
       forallb (fun c => negb (is_crypto c || is_decode c)) pre = true /\
       log_of run =
         pre ++ [call_sha256_Sum256 (signed_data tsH payload);
                 call_rsa_VerifyPKCS1v15 pub crypto_SHA256
                   (digest L tsH payload) sig;
                 call_json_Unmarshal payload]).
Proof.
  intros run.
  destruct (reaches_verification_dec L now key sigH tsH)
    as [(sig & pub & Hr)|Hn].
  - destruct (run_from_verification L now key payload sigH tsH sig pub Hr)
      as (pre & Hpre & Hrun).
    cbv zeta in Hrun. subst run. rewrite Hrun.
    destruct (rsa_VerifyPKCS1v15 L pub crypto_SHA256 (digest L tsH payload) sig)
      as [e|] eqn:Hv; cbn [log_of outcome fst snd]; split.
    + intros ev [=].
    + intros d Hin. apply in_app_or in Hin as [Hin|Hin].
      * destruct (early_calls _ _ Hpre Hin) as [_ [=]].
      * cbn in Hin. destruct Hin as [[=]|[[=]|[]]].
    + intros ev Hev. exists sig, pub. split; [exact Hr|]. split; [exact Hv|].
      eapply or_return_Ok; exact Hev.
    + intros d Hin. apply in_app_or in Hin as [Hin|Hin].
      * destruct (early_calls _ _ Hpre Hin) as [_ [=]].
      * cbn in Hin. destruct Hin as [[=]|[[=]|[[= <-]|[]]]].
        split; [reflexivity|]. exists sig, pub, pre. auto.
  - destruct (run_before_verification L now key payload sigH tsH Hn)
      as [Hall [e He]].
    subst run. split.
    + intros ev Hev. rewrite He in Hev. discriminate.
    + intros d Hin. destruct (early_calls _ _ Hall Hin) as [_ [=]].
Qed.

(** C4. The bytes [ConstructWebhookEvent] has the signature checked
    against are the bytes of the timestamp header, a dot, and the raw
    payload, as they were received: every digest in a run is computed
    over that concatenation, every signature check is on that digest,
    and a run that reaches the signature check does both. *)
Theorem canonical_message now key payload sigH tsH :
  let run := ConstructWebhookEvent L now key payload sigH tsH in
  let message := list_byte_of_string tsH ++ [x2e] ++ payload in
  signed_data tsH payload = message /\
  (forall data, In (call_sha256_Sum256 data) (log_of run) -> data = message) /\
  (forall pub h hashed sig,
     In (call_rsa_VerifyPKCS1v15 pub h hashed sig) (log_of run) ->
     h = crypto_SHA256 /\ hashed = sha256_Sum256 L message) /\
  (forall sig pub,
     reaches_verification L now key sigH tsH sig pub ->
     In (call_sha256_Sum256 message) (log_of run) /\
     In (call_rsa_VerifyPKCS1v15 pub crypto_SHA256
           (sha256_Sum256 L message) sig) (log_of run)).
Proof.
  intros run message.
  assert (Hm : signed_data tsH payload = message).
  { unfold signed_data, message. rewrite <- app_assoc. reflexivity. }
  split; [exact Hm|].
  assert (Hfrom : forall sig pub,
             reaches_verification L now key sigH tsH sig pub ->
             exists pre tl,
               forallb (fun c => negb (is_crypto c || is_decode c)) pre = true
               /\ log_of run =
                    pre ++ call_sha256_Sum256 message
                        :: call_rsa_VerifyPKCS1v15 pub crypto_SHA256
                             (sha256_Sum256 L message) sig
                        :: tl
               /\ forallb (fun c => negb (is_crypto c)) tl = true).
  { intros sig pub Hr.
    destruct (run_from_verification L now key payload sigH tsH sig pub Hr)
      as (pre & Hpre & Hrun).
    cbv zeta in Hrun. unfold digest in Hrun. rewrite Hm in Hrun.
    exists pre. subst run. rewrite Hrun.
    destruct (rsa_VerifyPKCS1v15 L pub crypto_SHA256 _ sig);
      cbn [log_of fst]; eexists; (split; [exact Hpre|]);
      (split; [reflexivity|reflexivity]). }
  assert (Hcases : forall c,
             In c (log_of run) -> is_crypto c = true ->
             exists sig pub,
               c = call_sha256_Sum256 message \/
               c = call_rsa_VerifyPKCS1v15 pub crypto_SHA256
                     (sha256_Sum256 L message) sig).
  { intros c Hin Hc.
    destruct (late_call_reaches now key payload sigH tsH c Hin)
      as (sig & pub & Hr); [rewrite Hc; reflexivity|].
    destruct (Hfrom sig pub Hr) as (pre & tl & Hpre & Hlog & Htl).
    exists sig, pub. fold run in Hin. rewrite Hlog in Hin.
    apply in_app_or in Hin as [Hin|Hin].
    - destruct (early_calls _ _ Hpre Hin) as [Hx _]. congruence.
    - destruct Hin as [<-|[<-|Hin]]; auto.
      rewrite forallb_forall in Htl. specialize (Htl c Hin).
      rewrite Hc in Htl. discriminate. }
  split; [|split].
  - intros data Hin.
    destruct (Hcases _ Hin eq_refl) as (sig & pub & [H|H]); congruence.
  - intros pub h hashed sig Hin.
    destruct (Hcases _ Hin eq_refl) as (sig' & pub' & [H|H]);
      [discriminate|]. injection H as -> -> -> ->. auto.
  - intros sig pub Hr.
    destruct (Hfrom sig pub Hr) as (pre & tl & _ & Hlog & _).
    rewrite Hlog. split; apply in_or_app; right; cbn; auto.
Qed.

(** C5, as amended.  On every input that reaches the signature check:
    whatever error the library's check reports, [ConstructWebhookEvent]
    fails with the one error "signature verification failed", of kind
    [SignatureVerificationError]; the decoding is not attempted; and any
    other input that reaches the check and fails it (another key, a
    changed payload, timestamp or signature) gets the very same error
    value, so a changed byte yields that error whenever the library's
    check fails on the changed input.  A signature header that decodes
    to the same signature bytes gives the same outcome as the header it
    replaces, be it this error or the event.  When the library accepts a
    signature under a key for one digest at most and accepts this one, a
    payload and timestamp with another digest that reach the check with
    the same key and signature bytes get that error. *)
Theorem verification_failure_undifferentiated
    now key payload sigH tsH sig pub :
  reaches_verification L now key sigH tsH sig pub ->
  let run := ConstructWebhookEvent L now key payload sigH tsH in
  (forall cause,
     rsa_VerifyPKCS1v15 L pub crypto_SHA256 (digest L tsH payload) sig
       = Some cause ->
     outcome run = Fail (errors_New "signature verification failed") /\
     kind_of (errors_New "signature verification failed")
       = Some SignatureVerificationError /\
     existsb is_decode (log_of run) = false /\
     (forall now' key' payload' sigH' tsH' sig' pub' cause',
        reaches_verification L now' key' sigH' tsH' sig' pub' ->
        rsa_VerifyPKCS1v15 L pub' crypto_SHA256 (digest L tsH' payload') sig'
          = Some cause' ->
        outcome (ConstructWebhookEvent L now' key' payload' sigH' tsH')
          = outcome run)) /\
  (forall sigH',
     base64_StdEncoding_DecodeString L sigH' = Ok sig ->
     outcome (ConstructWebhookEvent L now key payload sigH' tsH)
       = outcome run) /\
  (accepts_one_digest L ->
   rsa_VerifyPKCS1v15 L pub crypto_SHA256 (digest L tsH payload) sig = None ->
   forall now' key' payload' sigH' tsH',
     reaches_verification L now' key' sigH' tsH' sig pub ->
     digest L tsH' payload' <> digest L tsH payload ->
     outcome (ConstructWebhookEvent L now' key' payload' sigH' tsH')
       = Fail (errors_New "signature verification failed")).
Proof.
  intros Hr run.
  assert (Hfail : forall now key payload sigH tsH sig pub cause,
             reaches_verification L now key sigH tsH sig pub ->
             rsa_VerifyPKCS1v15 L pub crypto_SHA256 (digest L tsH payload) sig
               = Some cause ->
             exists pre,
               forallb (fun c => negb (is_crypto c || is_decode c)) pre = true
               /\ ConstructWebhookEvent L now key payload sigH tsH =
                    (pre ++ [call_sha256_Sum256 (signed_data tsH payload);
                             call_rsa_VerifyPKCS1v15 pub crypto_SHA256
                               (digest L tsH payload) sig],
                     Fail (errors_New "signature verification failed"))).
  { clear. intros now key payload sigH tsH sig pub cause Hr Hv.
    destruct (run_from_verification L now key payload sigH tsH sig pub Hr)
      as (pre & Hpre & Hrun).
    cbv zeta in Hrun. rewrite Hv in Hrun. exists pre. auto. }
  split; [|split].
  - intros cause Hv.
    destruct (Hfail _ _ _ _ _ _ _ _ Hr Hv) as (pre & Hpre & Hrun).
    subst run. rewrite Hrun. cbn [outcome log_of fst snd].
    split; [reflexivity|]. split; [reflexivity|]. split.
    + rewrite existsb_app. cbn. rewrite orb_false_r.
      apply not_true_is_false. intros Hex.
      apply existsb_exists in Hex as (c & Hin & Hc).
      destruct (early_calls _ _ Hpre Hin) as [_ Hd]. congruence.
    + intros now' key' payload' sigH' tsH' sig' pub' cause' Hr' Hv'.
      destruct (Hfail _ _ _ _ _ _ _ _ Hr' Hv') as (pre' & _ & Hrun').
      rewrite Hrun'. reflexivity.
  - intros sigH' Hs'.
    assert (Hr' : reaches_verification L now key sigH' tsH sig pub).
    { destruct Hr as (t & block & Hp & Hw & _ & Hb & Hk).
      exists t, block. auto. }
    destruct (run_from_verification L now key payload sigH tsH sig pub Hr)
      as (pre & _ & Hrun).
    destruct (run_from_verification L now key payload sigH' tsH sig pub Hr')
      as (pre' & _ & Hrun').
    cbv zeta in Hrun, Hrun'. subst run. rewrite Hrun, Hrun'.
    destruct (rsa_VerifyPKCS1v15 L pub crypto_SHA256 (digest L tsH payload)
                sig); reflexivity.
  - intros Hone Hv now' key' payload' sigH' tsH' Hr' Hd.
    destruct (rsa_VerifyPKCS1v15 L pub crypto_SHA256 (digest L tsH' payload')
                sig) as [cause'|] eqn:Hv'.
    + destruct (Hfail _ _ _ _ _ _ _ _ Hr' Hv') as (pre' & _ & Hrun').
      rewrite Hrun'. reflexivity.
    + elim Hd. exact (Hone _ _ _ _ Hv' Hv).
Qed.

(** C6, as amended.  For a key text that holds a PKIX public key of
    another algorithm than RSA: no run on that key computes a digest or
    attempts a signature check, whatever the timestamp, signature and
    payload; and when the timestamp parses and passes the window check
    and the signature header decodes, the run fails with "public key is
    not RSA", of kind [UnsupportedKeyTypeError], which is not the kind
    [PublicKeyParseError]. *)
Theorem non_rsa_key_rejected key block pub :
  pem_Decode L (list_byte_of_string key) = Some block ->
  x509_ParsePKIXPublicKey L (pem_Bytes block) = Ok pub ->
  as_rsa_PublicKey pub = None ->
  (forall now payload sigH tsH,
     existsb is_crypto
       (log_of (ConstructWebhookEvent L now key payload sigH tsH)) = false) /\
  (forall now payload sigH tsH t sig,
     time_Parse L time.RFC3339 tsH = Ok t ->
     check_window (time.Since now t) = Ok tt ->
     base64_StdEncoding_DecodeString L sigH = Ok sig ->
     outcome (ConstructWebhookEvent L now key payload sigH tsH)
       = Fail (errors_New "public key is not RSA")) /\
  kind_of (errors_New "public key is not RSA") = Some UnsupportedKeyTypeError /\
  UnsupportedKeyTypeError <> PublicKeyParseError.
Proof.
  intros Hb Hk Hn. split; [|split; [|split; [reflexivity|discriminate]]].
  - intros now payload sigH tsH. apply not_true_is_false. intros Hex.
    apply existsb_exists in Hex as (c & Hin & Hc).
    destruct (late_call_reaches now key payload sigH tsH c Hin)
      as (sig & pub' & (t & b & _ & _ & _ & Hb' & Hk'));
      [rewrite Hc; reflexivity|].
    rewrite Hb in Hb'. injection Hb' as <-. rewrite Hk in Hk'.
    injection Hk' as ->. discriminate.
  - intros now payload sigH tsH t sig Hp Hw Hs.
    unfold ConstructWebhookEvent, Traced.bind, Traced.call, Traced.fail,
    Traced.lift,
      or_return, outcome.
    rewrite Hp, Hw, Hs, Hb, Hk, Hn. reflexivity.
Qed.

(** C7. With a timestamp that parses and passes the window check and a
    signature header that decodes: if no PEM block is found in the key
    text, or the block does not parse as a public-key-info structure,
    [ConstructWebhookEvent] fails with an error of kind
    [PublicKeyParseError], for every payload and signature, and the run
    computes no digest and attempts no signature check. *)
Theorem unparsable_key_rejected now key payload sigH tsH t sig :
  time_Parse L time.RFC3339 tsH = Ok t ->
  check_window (time.Since now t) = Ok tt ->
  base64_StdEncoding_DecodeString L sigH = Ok sig ->
  pem_Decode L (list_byte_of_string key) = None \/
  (exists block cause,
     pem_Decode L (list_byte_of_string key) = Some block /\
     x509_ParsePKIXPublicKey L (pem_Bytes block) = Fail cause) ->
  let run := ConstructWebhookEvent L now key payload sigH tsH in
  (exists e, outcome run = Fail e /\ kind_of e = Some PublicKeyParseError) /\
  existsb is_crypto (log_of run) = false.
Proof.
  intros Hp Hw Hs Hkey run. split.
  - subst run.
    unfold ConstructWebhookEvent, Traced.bind, Traced.call, Traced.fail,
    Traced.lift,
      or_return, outcome.
    rewrite Hp, Hw, Hs.
    destruct Hkey as [Hb|(block & cause & Hb & Hk)]; rewrite Hb; cbn.
    + eexists. split; reflexivity.
    + rewrite Hk. cbn. eexists. split; reflexivity.
  - apply not_true_is_false. intros Hex.
    apply existsb_exists in Hex as (c & Hin & Hc).
    destruct (late_call_reaches now key payload sigH tsH c Hin)
      as (sig' & pub' & (t' & b & _ & _ & _ & Hb' & Hk'));
      [rewrite Hc; reflexivity|].
    destruct Hkey as [Hb|(block & cause & Hb & Hk)]; rewrite Hb in Hb';
      [discriminate|].
    injection Hb' as <-. rewrite Hk in Hk'. discriminate.
Qed.

(** C2, as amended.  For an RSA key pair whose signatures the library's
    check accepts under the public key (the library refuses some keys:
    [crypto/rsa] of Go 1.24 and later refuses keys of less than 1024
    bits), a payload, and a timestamp that parses to an instant within
    the skew window of the current time: when the bytes
    [timestamp . payload] are hashed and signed with the private key, and
    [ConstructWebhookEvent] is called with a PEM text of the public key,
    the payload, a base64 text of the signature and the timestamp, the
    outcome is the outcome of decoding the payload bytes as they are: the
    decoded event when the payload decodes as the event type, and an
    error of kind [PayloadDecodeError] when it does not. *)
Theorem signed_delivery_decoded
    (PrivateKey : Type) (public : PrivateKey -> rsa_PublicKey)
    (sign : PrivateKey -> crypto_Hash -> list byte -> result (list byte))
    now priv key payload sigH tsH t block sig :
  (forall hashed s,
     sign priv crypto_SHA256 hashed = Ok s ->
     rsa_VerifyPKCS1v15 L (public priv) crypto_SHA256 hashed s = None) ->
  time_Parse L time.RFC3339 tsH = Ok t ->
  within_skew now t ->
  pem_Decode L (list_byte_of_string key) = Some block ->
  x509_ParsePKIXPublicKey L (pem_Bytes block) = Ok (key_rsa (public priv)) ->
  sign priv crypto_SHA256
    (sha256_Sum256 L (list_byte_of_string tsH ++ [x2e] ++ payload)) = Ok sig ->
  base64_StdEncoding_DecodeString L sigH = Ok sig ->
  let run := ConstructWebhookEvent L now key payload sigH tsH in
  (forall ev, json_Unmarshal L payload = Ok ev -> outcome run = Ok ev) /\
  (forall cause, json_Unmarshal L payload = Fail cause ->
     exists e, outcome run = Fail e /\ kind_of e = Some PayloadDecodeError).
Proof.
  intros Haccepts Hp Hw Hb Hk Hsign Hs run.
  assert (Hr : reaches_verification L now key sigH tsH sig (public priv)).
  { exists t, block. split; [exact Hp|].
    split; [apply within_skew_passes; exact Hw|]. auto. }
  destruct (run_from_verification L now key payload sigH tsH _ _ Hr)
    as (pre & _ & Hrun).
  cbv zeta in Hrun. unfold digest, signed_data in Hrun.
  rewrite <- app_assoc in Hrun.
  rewrite (Haccepts _ _ Hsign) in Hrun.
  subst run. rewrite Hrun. cbn [outcome snd]. split.
  - intros ev ->. reflexivity.
  - intros cause ->. cbn. eexists. split; reflexivity.
Qed.

End WebhookClaims.

(** ** Claims on the lookups *)

Section LookupClaims.
Context (G : Generated).

(** The run of a lookup's first part on a response that is read and
    decoded. *)
Lemma read_envelope_decoded {D} resp body
    (unmarshal : list byte -> result (envelope D)) env :
  StatusCode resp = http_StatusOK ->
  Body resp = Ok body ->
  unmarshal body = Ok env ->
  read_envelope resp unmarshal =
    match error_string (Error env) with
    | Some s => fail (errors_New s)
    | None => ret env
    end.
Proof.
  intros Hs Hb Hu. unfold read_envelope.
  rewrite Hs, Z.eqb_refl. cbn [negb]. rewrite Hb. cbn.
  rewrite Hu. cbn. destruct (error_string (Error env)); reflexivity.
Qed.

Lemma error_string_set s : s <> EmptyString -> error_string (Some s) = Some s.
Proof.
  intros Hs. cbn. destruct (String.eqb_spec s EmptyString); [contradiction|reflexivity].
Qed.

Lemma error_string_unset e :
  e = None \/ e = Some EmptyString -> error_string e = None.
Proof. intros [->| ->]; reflexivity. Qed.

(** C8. For a response of a list endpoint that is read and decoded: when
    the envelope carries a non-empty error string, [ListProducts] and
    [ListEntitlements] fail with that string as the error; when it
    carries no error (none, or the empty string) and no data, they return
    the empty, non-nil slice and no error. *)
Theorem list_endpoints_envelope environment :
  (forall resp body env,
     GetTenantProducts G = Ok resp ->
     StatusCode resp = http_StatusOK ->
     Body resp = Ok body ->
     json_Unmarshal_products G body = Ok env ->
     (forall s, Error env = Some s -> s <> EmptyString ->
        outcome (ListProducts G) = Fail (errors_New s)) /\
     (Error env = None \/ Error env = Some EmptyString ->
      Data env = None ->
        outcome (ListProducts G) = Ok (slice_of []) /\
        outcome (ListProducts G) <> Ok slice_nil)) /\
  (forall resp body env,
     GetTenantEntitlementsByEnvironment G environment = Ok resp ->
     StatusCode resp = http_StatusOK ->
     Body resp = Ok body ->
     json_Unmarshal_entitlements G body = Ok env ->
     (forall s, Error env = Some s -> s <> EmptyString ->
        outcome (ListEntitlements G environment) = Fail (errors_New s)) /\
     (Error env = None \/ Error env = Some EmptyString ->
      Data env = None ->
        outcome (ListEntitlements G environment) = Ok (slice_of []) /\
        outcome (ListEntitlements G environment) <> Ok slice_nil)).
Proof.
  split; intros resp body env Hr Hs Hb Hu; split.
  - intros s He Hne. unfold ListProducts. rewrite Hr. cbn.
    rewrite (read_envelope_decoded _ _ _ _ Hs Hb Hu), He.
    rewrite (error_string_set _ Hne). reflexivity.
  - intros He Hd. unfold ListProducts. rewrite Hr. cbn.
    rewrite (read_envelope_decoded _ _ _ _ Hs Hb Hu).
    rewrite (error_string_unset _ He). cbn. rewrite Hd. cbn.
    split; [reflexivity|discriminate].
  - intros s He Hne. unfold ListEntitlements. rewrite Hr. cbn.
    rewrite (read_envelope_decoded _ _ _ _ Hs Hb Hu), He.
    rewrite (error_string_set _ Hne). reflexivity.
  - intros He Hd. unfold ListEntitlements. rewrite Hr. cbn.
    rewrite (read_envelope_decoded _ _ _ _ Hs Hb Hu).
    rewrite (error_string_unset _ He). cbn. rewrite Hd. cbn.
    split; [reflexivity|discriminate].
Qed.

Lemma range_products_find products sub :
  range_products G products sub = product_of G sub products.
Proof.
  induction products as [|p ps IH]; cbn; [reflexivity|].
  destruct (ProductRef_eq_dec G _ _); [reflexivity|exact IH].
Qed.

Lemma range_entitlements_find entitlements product :
  range_entitlements G entitlements product
  = entitlement_of G product entitlements.
Proof.
  induction entitlements as [|e es IH]; cbn; [reflexivity|].
  destruct (EntitlementRef_eq_dec G _ _); [reflexivity|exact IH].
Qed.


(** C10, as amended.  Absence of a result is not an error: when the
    response to the subscription request is read and decoded and the
    envelope carries no data and no non-empty error string,
    [GetActiveSubscription], [GetActiveProduct] and
    [GetActiveEntitlement] return nil with a nil error; when a
    subscription is returned and the products are listed but none has
    the subscription's product reference, [GetActiveProduct] and
    [GetActiveEntitlement] return nil with a nil error; when a product
    is returned and the entitlements are listed but none has the
    product's entitlement reference, [GetActiveEntitlement] returns nil
    with a nil error. *)
Theorem absence_is_not_an_error customerEmail environment :
  (forall resp body env,
     PostTenantSubscriptionsActive G customerEmail = Ok resp ->
     StatusCode resp = http_StatusOK ->
     Body resp = Ok body ->
     json_Unmarshal_subscription G body = Ok env ->
     error_string (Error env) = None ->
     Data env = None ->
     outcome (GetActiveSubscription G customerEmail) = Ok None /\
     outcome (GetActiveProduct G customerEmail) = Ok None /\
     outcome (GetActiveEntitlement G customerEmail environment) = Ok None) /\
  (forall sub products,
     outcome (GetActiveSubscription G customerEmail) = Ok (Some sub) ->
     outcome (ListProducts G) = Ok products ->
     (forall p, In p (slice_range products) ->
        TenantProduct_ProductId G p <> StorableSubscription_ProductId G sub) ->
     outcome (GetActiveProduct G customerEmail) = Ok None /\
     outcome (GetActiveEntitlement G customerEmail environment) = Ok None) /\
  (forall product entitlements,
     outcome (GetActiveProduct G customerEmail) = Ok (Some product) ->
     outcome (ListEntitlements G environment) = Ok entitlements ->
     (forall e, In e (slice_range entitlements) ->
        TenantEntitlement_Id G e <> TenantProduct_EntitlementId G product) ->
     outcome (GetActiveEntitlement G customerEmail environment) = Ok None).
Proof.
  split; [|split].
  - intros resp body env Hr Hs Hb Hu He Hd.
    assert (Hsub : GetActiveSubscription G customerEmail
                   = ([call_PostTenantSubscriptionsActive customerEmail],
                      Ok None)).
    { unfold GetActiveSubscription. rewrite Hr. cbn.
      rewrite (read_envelope_decoded _ _ _ _ Hs Hb Hu), He. cbn.
      rewrite Hd. reflexivity. }
    unfold GetActiveEntitlement, GetActiveProduct. rewrite Hsub.
    repeat split; reflexivity.
  - intros sub products Hsub Hp Hnone.
    assert (Hf : range_products G (slice_range products) sub = None).
    { induction (slice_range products) as [|p ps IH]; cbn; [reflexivity|].
      destruct (ProductRef_eq_dec G _ _) as [Heq|_].
      - exfalso. apply (Hnone p); [left; reflexivity|exact Heq].
      - apply IH. intros q Hq. apply Hnone. right. exact Hq. }
    unfold GetActiveEntitlement, GetActiveProduct.
    destruct (GetActiveSubscription G customerEmail) as [l1 r1].
    destruct (ListProducts G) as [l2 r2].
    cbn in Hsub, Hp. subst r1 r2. cbn. rewrite Hf. split; reflexivity.
  - intros product entitlements Hp He Hnone.
    assert (Hf : range_entitlements G (slice_range entitlements) product
                 = None).
    { induction (slice_range entitlements) as [|e es IH]; cbn; [reflexivity|].
      destruct (EntitlementRef_eq_dec G _ _) as [Heq|_].
      - exfalso. apply (Hnone e); [left; reflexivity|exact Heq].
      - apply IH. intros q Hq. apply Hnone. right. exact Hq. }
    unfold GetActiveEntitlement.
    destruct (GetActiveProduct G customerEmail) as [l1 r1].
    destruct (ListEntitlements G environment) as [l2 r2].
    cbn in Hp, He. subst r1 r2. cbn. rewrite Hf. reflexivity.
Qed.

End LookupClaims.

(** ** Runs on the test vectors *)

Section Runs.
Import Vectors.

(** The scenario of the specification: a delivery signed by the key is
    accepted and decoded. *)
Example signed_delivery_run :
  outcome (ConstructWebhookEvent GoStd.lib now rsa_key_pem payload signature timestamp) = Ok event.
Proof. vm_compute. reflexivity. Qed.

(** Exactly five minutes late is accepted, a nanosecond more is not. *)
Example boundary_run :
  outcome (ConstructWebhookEvent GoStd.lib (now + 5 * time.Minute)
             rsa_key_pem payload signature timestamp) = Ok event /\
  outcome (ConstructWebhookEvent GoStd.lib (now + 5 * time.Minute + 1)
             rsa_key_pem payload signature timestamp)
  = Fail (errors_New "timestamp is outside the 5-minute window").
Proof. split; vm_compute; reflexivity. Qed.

(** One changed byte in the payload, the signature or the timestamp. *)
Example tampered_runs :
  outcome (ConstructWebhookEvent GoStd.lib now rsa_key_pem tampered_payload signature timestamp)
  = Fail (errors_New "signature verification failed") /\
  outcome (ConstructWebhookEvent GoStd.lib now rsa_key_pem payload tampered_signature timestamp)
  = Fail (errors_New "signature verification failed") /\
  outcome (ConstructWebhookEvent GoStd.lib now rsa_key_pem payload signature tampered_timestamp)
  = Fail (errors_New "signature verification failed").
Proof. split; [|split]; vm_compute; reflexivity. Qed.

(** The signature bytes are what is checked: a header that spells the
    same bytes differently is accepted. *)
Example respelled_signature_run :
  respelled_signature <> signature /\
  decoded respelled_signature = decoded signature /\
  outcome (ConstructWebhookEvent GoStd.lib now rsa_key_pem payload
             respelled_signature timestamp) = Ok event.
Proof.
  split; [discriminate|]. split; vm_compute; reflexivity.
Qed.

(** Stale, malformed and foreign inputs stop at their stage. *)
Example early_failures :
  outcome (ConstructWebhookEvent GoStd.lib now rsa_key_pem payload
             signature "yesterday")
  = Fail (fmt_Errorf "invalid timestamp header: %w"
            (errors_New "parsing time: cannot parse as RFC3339")) /\
  outcome (ConstructWebhookEvent GoStd.lib now rsa_key_pem payload
             signature old_timestamp)
  = Fail (errors_New "timestamp is outside the 5-minute window") /\
  outcome (ConstructWebhookEvent GoStd.lib now "not a key" payload
             signature timestamp)
  = Fail (errors_New "failed to parse PEM block containing the public key") /\
  outcome (ConstructWebhookEvent GoStd.lib now ec_key_pem payload
             signature timestamp)
  = Fail (errors_New "public key is not RSA").
Proof. split; [|split; [|split]]; vm_compute; reflexivity. Qed.

Lemma vectors_reach_verification :
  reaches_verification GoStd.lib now rsa_key_pem signature timestamp
    (decoded signature) public_key.
Proof.
  exists (instant timestamp), (block_of rsa_key_pem).
  split; [|split; [|split; [|split]]]; vm_compute; reflexivity.
Qed.

Lemma ec_key_is_not_rsa :
  pem_Decode GoStd.lib (list_byte_of_string ec_key_pem)
  = Some (block_of ec_key_pem) /\
  x509_ParsePKIXPublicKey GoStd.lib (pem_Bytes (block_of ec_key_pem))
  = Ok (key_of ec_key_pem) /\
  as_rsa_PublicKey (key_of ec_key_pem) = None.
Proof. split; [|split]; vm_compute; reflexivity. Qed.

Lemma rsa_key_is_public_key :
  pem_Decode GoStd.lib (list_byte_of_string rsa_key_pem)
  = Some (block_of rsa_key_pem) /\
  x509_ParsePKIXPublicKey GoStd.lib (pem_Bytes (block_of rsa_key_pem))
  = Ok (key_rsa public_key).
Proof. split; vm_compute; reflexivity. Qed.

Lemma timestamp_within_skew : within_skew now (instant timestamp).
Proof. vm_compute. discriminate. Qed.

(** *** C1 *)

Lemma event_only_after_verification_witness :
  outcome (ConstructWebhookEvent GoStd.lib now rsa_key_pem payload
             signature timestamp) = Ok event /\
  exists sig pub,
    reaches_verification GoStd.lib now rsa_key_pem signature timestamp
      sig pub /\
    rsa_VerifyPKCS1v15 GoStd.lib pub crypto_SHA256
      (digest GoStd.lib timestamp payload) sig = None /\
    json_Unmarshal GoStd.lib payload = Ok event.
Proof.
  split; [vm_compute; reflexivity|].
  apply (proj1 (event_only_after_verification GoStd.lib now rsa_key_pem
                  payload signature timestamp)).
  vm_compute. reflexivity.
Defined.

(** *** C2 *)

(** A payload that is not JSON, signed with the private key and
    delivered with the matching public key, a base64 text of the
    signature and a timestamp within the window: the call fails. *)
Lemma signed_text_payload_rejected :
  GoStd.time_Parse time.RFC3339 timestamp = Ok (instant timestamp) /\
  within_skew now (instant timestamp) /\
  GoStd.rsa_SignPKCS1v15 rsa_private_key crypto_SHA256
    (GoStd.sha256_Sum256
       (list_byte_of_string timestamp ++ [x2e] ++ text_payload))
  = Ok (decoded text_signature) /\
  GoStd.base64_DecodeString text_signature = Ok (decoded text_signature) /\
  outcome (ConstructWebhookEvent GoStd.lib now rsa_key_pem text_payload
             text_signature timestamp)
  = Fail (fmt_Errorf "failed to parse webhook payload: %w"
            (errors_New "json: cannot unmarshal into the event type")).
Proof.
  split; [vm_compute; reflexivity|].
  split; [exact timestamp_within_skew|].
  split; [|split]; vm_compute; reflexivity.
Qed.

Lemma signed_delivery_decoded_witness :
  GoStd.rsa_SignPKCS1v15 rsa_private_key crypto_SHA256
    (GoStd.sha256_Sum256 (list_byte_of_string timestamp ++ [x2e] ++ payload))
  = Ok (decoded signature) /\
  outcome (ConstructWebhookEvent GoStd.lib now rsa_key_pem payload
             signature timestamp) = Ok event.
Proof.
  assert (Hsign :
            GoStd.rsa_SignPKCS1v15 rsa_private_key crypto_SHA256
              (GoStd.sha256_Sum256
                 (list_byte_of_string timestamp ++ [x2e] ++ payload))
            = Ok (decoded signature)) by (vm_compute; reflexivity).
  split; [exact Hsign|].
  refine (proj1 (signed_delivery_decoded GoStd.lib
                   GoStd.rsa_PrivateKey GoStd.rsa_PublicKey_of
                   GoStd.rsa_SignPKCS1v15
                   now rsa_private_key rsa_key_pem payload signature timestamp
                   (instant timestamp) (block_of rsa_key_pem)
                   (decoded signature)
                   (fun hashed s =>
                      GoStdFacts.rsa_sign_verify rsa_private_key
                        crypto_SHA256 hashed s)
                   _ timestamp_within_skew
                   (proj1 rsa_key_is_public_key) (proj2 rsa_key_is_public_key)
                   Hsign _) event _);
    vm_compute; reflexivity.
Defined.

(** A key of 512 bits: the signature is the one PKCS #1 v1.5 defines for
    the digest, and the library's check refuses the key, so that the
    delivery fails. *)
Example small_key_refused :
  x509_ParsePKIXPublicKey GoStd.lib (pem_Bytes (block_of small_key_pem))
  = Ok (key_of small_key_pem) /\
  (exists pub,
     key_of small_key_pem = key_rsa pub /\
     GoStd.rsa_BitLen pub = 512 /\
     GoStd.pkcs1v15ConstructEM pub crypto_SHA256
       (digest GoStd.lib timestamp payload)
     = Some (GoStd.I2OSP (GoStd.rsa_Size pub)
               (GoStd.pow_mod (GoStd.OS2IP (decoded small_key_signature))
                  (rsa_E pub) (rsa_N pub)))) /\
  outcome (ConstructWebhookEvent GoStd.lib now small_key_pem payload
             small_key_signature timestamp)
  = Fail (errors_New "signature verification failed").
Proof.
  split; [vm_compute; reflexivity|]. split; [|vm_compute; reflexivity].
  eexists. split; [vm_compute; reflexivity|].
  split; vm_compute; reflexivity.
Qed.

(** *** C3 *)

(** C3 fails on the code.  The timestamp header 2400-01-01T00:00:00Z
    parses; it lies 374 years after the clock reading, outside the skew
    window; the window check passes all the same, and with a signature
    over that timestamp the event is returned.  The timestamp as far in
    the past is rejected. *)
Theorem far_future_timestamp_accepted :
  GoStd.time_Parse time.RFC3339 far_timestamp = Ok (instant far_timestamp) /\
  GoStd.time_Parse time.RFC3339 old_timestamp = Ok (instant old_timestamp) /\
  instant far_timestamp - now = now - instant old_timestamp /\
  ~ within_skew now (instant far_timestamp) /\
  check_window (time.Since now (instant far_timestamp)) = Ok tt /\
  check_window (time.Since now (instant old_timestamp))
  = Fail (errors_New "timestamp is outside the 5-minute window") /\
  outcome (ConstructWebhookEvent GoStd.lib now rsa_key_pem payload
             far_signature far_timestamp) = Ok event.
Proof.
  split; [vm_compute; reflexivity|].
  split; [vm_compute; reflexivity|].
  split; [vm_compute; reflexivity|].
  split; [vm_compute; intros H; apply H; reflexivity|].
  split; [apply check_window_far_future; vm_compute; discriminate|].
  split; [apply check_window_far_past; vm_compute; discriminate|].
  vm_compute. reflexivity.
Qed.

(** *** C4 *)

Lemma canonical_message_witness :
  In (call_rsa_VerifyPKCS1v15 public_key crypto_SHA256
        (sha256_Sum256 GoStd.lib
           (list_byte_of_string timestamp ++ [x2e] ++ payload))
        (decoded signature))
     (log_of (ConstructWebhookEvent GoStd.lib now rsa_key_pem payload
                signature timestamp)).
Proof.
  apply (proj2 (proj2 (proj2 (canonical_message GoStd.lib now rsa_key_pem
                                payload signature timestamp)))
           (decoded signature) public_key vectors_reach_verification).
Defined.

(** *** C5 *)

(** The signature header with one byte changed, its last character
    before the padding: it decodes to the same signature bytes, reaches
    the signature check, and the delivery is accepted as before. *)
Lemma respelled_signature_accepted :
  String.length respelled_signature = String.length signature /\
  changed_bytes (list_byte_of_string respelled_signature)
    (list_byte_of_string signature) = 1%nat /\
  reaches_verification GoStd.lib now rsa_key_pem respelled_signature timestamp
    (decoded signature) public_key /\
  outcome (ConstructWebhookEvent GoStd.lib now rsa_key_pem payload
             signature timestamp) = Ok event /\
  outcome (ConstructWebhookEvent GoStd.lib now rsa_key_pem payload
             respelled_signature timestamp) = Ok event /\
  outcome (ConstructWebhookEvent GoStd.lib now rsa_key_pem payload
             respelled_signature timestamp)
  <> Fail (errors_New "signature verification failed").
Proof.
  assert (Hrun : outcome (ConstructWebhookEvent GoStd.lib now rsa_key_pem
                            payload respelled_signature timestamp) = Ok event)
    by (vm_compute; reflexivity).
  split; [vm_compute; reflexivity|]. split; [vm_compute; reflexivity|].
  split.
  - exists (instant timestamp), (block_of rsa_key_pem).
    split; [|split; [|split; [|split]]]; vm_compute; reflexivity.
  - split; [vm_compute; reflexivity|]. split; [exact Hrun|].
    rewrite Hrun. discriminate.
Qed.

Lemma verification_failure_undifferentiated_witness :
  reaches_verification GoStd.lib now rsa_key_pem signature timestamp
    (decoded signature) public_key /\
  outcome (ConstructWebhookEvent GoStd.lib now rsa_key_pem tampered_payload
             signature timestamp)
  = Fail (errors_New "signature verification failed") /\
  outcome (ConstructWebhookEvent GoStd.lib now rsa_key_pem payload
             signature tampered_timestamp)
  = Fail (errors_New "signature verification failed").
Proof.
  split; [exact vectors_reach_verification|].
  assert (Hv : rsa_VerifyPKCS1v15 GoStd.lib public_key crypto_SHA256
                 (digest GoStd.lib timestamp tampered_payload)
                 (decoded signature)
               = Some GoStd.rsa_ErrVerification) by (vm_compute; reflexivity).
  assert (Hok : rsa_VerifyPKCS1v15 GoStd.lib public_key crypto_SHA256
                  (digest GoStd.lib timestamp payload) (decoded signature)
                = None) by (vm_compute; reflexivity).
  assert (Hr : reaches_verification GoStd.lib now rsa_key_pem signature
                 tampered_timestamp (decoded signature) public_key).
  { exists (instant tampered_timestamp), (block_of rsa_key_pem).
    split; [|split; [|split; [|split]]]; vm_compute; reflexivity. }
  assert (Hd : digest GoStd.lib tampered_timestamp payload
               <> digest GoStd.lib timestamp payload)
    by (vm_compute; discriminate).
  split.
  - exact (proj1 (proj1 (verification_failure_undifferentiated GoStd.lib now
                           rsa_key_pem tampered_payload signature timestamp
                           (decoded signature) public_key
                           vectors_reach_verification)
                    GoStd.rsa_ErrVerification Hv)).
  - exact (proj2 (proj2 (verification_failure_undifferentiated GoStd.lib now
                           rsa_key_pem payload signature timestamp
                           (decoded signature) public_key
                           vectors_reach_verification))
             GoStdFacts.rsa_verify_one_digest Hok
             now rsa_key_pem payload signature tampered_timestamp Hr Hd).
Defined.

(** *** C6 *)

(** An elliptic-curve key with a signature header that is not base64:
    the key text holds a PKIX key that is not RSA, and the call fails
    with the error of the signature decoding, not with "public key is
    not RSA". *)
Lemma non_rsa_key_undecodable_signature :
  pem_Decode GoStd.lib (list_byte_of_string ec_key_pem)
  = Some (block_of ec_key_pem) /\
  x509_ParsePKIXPublicKey GoStd.lib (pem_Bytes (block_of ec_key_pem))
  = Ok (key_of ec_key_pem) /\
  as_rsa_PublicKey (key_of ec_key_pem) = None /\
  outcome (ConstructWebhookEvent GoStd.lib now ec_key_pem payload
             "!" timestamp)
  = Fail (fmt_Errorf "failed to decode signature: %w"
            (errors_New "illegal base64 data")) /\
  outcome (ConstructWebhookEvent GoStd.lib now ec_key_pem payload
             "!" timestamp)
  <> Fail (errors_New "public key is not RSA").
Proof.
  split; [|split; [|split; [|split]]]; vm_compute;
    try reflexivity; discriminate.
Qed.

Lemma non_rsa_key_rejected_witness :
  existsb is_crypto
    (log_of (ConstructWebhookEvent GoStd.lib now ec_key_pem payload
               signature timestamp)) = false /\
  outcome (ConstructWebhookEvent GoStd.lib now ec_key_pem payload
             signature timestamp)
  = Fail (errors_New "public key is not RSA").
Proof.
  destruct ec_key_is_not_rsa as (Hb & Hk & Hn).
  destruct (non_rsa_key_rejected GoStd.lib ec_key_pem _ _ Hb Hk Hn)
    as (Hlog & Hout & _).
  split; [apply Hlog|].
  apply (Hout now payload signature timestamp (instant timestamp)
           (decoded signature)); vm_compute; reflexivity.
Defined.

(** *** C7 *)

Lemma unparsable_key_rejected_witness :
  exists e,
    outcome (ConstructWebhookEvent GoStd.lib now "not a key" payload
               signature timestamp) = Fail e /\
    kind_of e = Some PublicKeyParseError.
Proof.
  apply (unparsable_key_rejected GoStd.lib now "not a key" payload signature
           timestamp (instant timestamp) (decoded signature)).
  - vm_compute. reflexivity.
  - vm_compute. reflexivity.
  - vm_compute. reflexivity.
  - left. vm_compute. reflexivity.
Defined.

End Runs.

(** ** Runs against the stand-in remote *)

Section RemoteRuns.
Import Remote.

(** A customer subscribed to the second listed product. *)
Example active_entitlement_run :
  GetActiveEntitlement
    (serving (data sub_pro) (data (slice_of [basic; pro]))
       (data (slice_of [ent_basic; ent_pro])))
    "user@example.com" "production"
  = ([call_PostTenantSubscriptionsActive "user@example.com";
      call_GetTenantProducts;
      call_GetTenantEntitlementsByEnvironment "production"],
     Ok (Some ent_pro)).
Proof. reflexivity. Qed.

(** *** C8 *)

Lemma list_endpoints_envelope_witness :
  outcome (ListProducts (serving no_data (failure "quota exceeded") no_data))
  = Fail (errors_New "quota exceeded") /\
  outcome (ListEntitlements (serving no_data no_data no_data) "production")
  = Ok (slice_of []).
Proof.
  split.
  - apply (proj1 (proj1 (list_endpoints_envelope
                           (serving no_data (failure "quota exceeded") no_data)
                           "production")
                    _ [] (failure "quota exceeded")
                    eq_refl eq_refl eq_refl eq_refl)
             "quota exceeded"%string eq_refl).
    discriminate.
  - apply (proj2 (proj2 (list_endpoints_envelope
                           (serving no_data no_data no_data) "production")
                    _ [] no_data eq_refl eq_refl eq_refl eq_refl)
             (or_introl eq_refl) eq_refl).
Defined.

(** *** C10 *)

(** The envelope of a failed request carries no data, and the lookups
    fail on it. *)
Lemma error_envelope_without_data_fails :
  let G := serving (failure "customer not found") no_data no_data in
  PostTenantSubscriptionsActive G "user@example.com" = ok_response /\
  json_Unmarshal_subscription G [] = Ok (failure "customer not found") /\
  Data (failure "customer not found" : envelope Subscription) = None /\
  outcome (GetActiveSubscription G "user@example.com")
  = Fail (errors_New "customer not found") /\
  outcome (GetActiveProduct G "user@example.com")
  = Fail (errors_New "customer not found") /\
  outcome (GetActiveEntitlement G "user@example.com" "production")
  = Fail (errors_New "customer not found").
Proof. cbv zeta. repeat split. Qed.

Lemma absence_is_not_an_error_witness :
  outcome (GetActiveSubscription (serving no_data no_data no_data)
             "user@example.com") = Ok None /\
  outcome (GetActiveProduct
             (serving (data sub_gone) (data (slice_of [basic; pro])) no_data)
             "user@example.com") = Ok None /\
  outcome (GetActiveEntitlement
             (serving (data sub_pro) (data (slice_of [basic; pro]))
                (data (slice_of [ent_basic])))
             "user@example.com" "production") = Ok None.
Proof.
  split; [|split].
  - apply (proj1 (absence_is_not_an_error (serving no_data no_data no_data)
                    "user@example.com" "production")
             _ [] no_data eq_refl eq_refl eq_refl eq_refl eq_refl eq_refl).
  - apply (proj1 (proj2 (absence_is_not_an_error
                    (serving (data sub_gone) (data (slice_of [basic; pro]))
                       no_data)
                    "user@example.com" "production"))
             sub_gone (slice_of [basic; pro]) eq_refl eq_refl).
    intros p [<-|[<-|[]]]; discriminate.
  - apply (proj2 (proj2 (absence_is_not_an_error
                    (serving (data sub_pro) (data (slice_of [basic; pro]))
                       (data (slice_of [ent_basic])))
                    "user@example.com" "production"))
             pro (slice_of [ent_basic]) eq_refl eq_refl).
    intros e [<-|[]]. discriminate.
Defined.

End RemoteRuns.


(** * Further properties of [ConstructWebhookEvent] *)

Lemma check_window_result d :
  check_window d = Ok tt \/
  check_window d = Fail (errors_New "timestamp is outside the 5-minute window").
Proof.
  unfold check_window. cbv zeta.
  match goal with
  | |- context [if ?c then Fail _ else Ok tt] => destruct c
  end; auto.
Qed.

Lemma check_window_outside now t :
  5 * time.Minute < now - t \/ 5 * time.Minute < t - now < 2 ^ 63 ->
  check_window (time.Since now t)
  = Fail (errors_New "timestamp is outside the 5-minute window").
Proof.
  change (5 * time.Minute) with 300000000000. intros Hd.
  destruct (Z.lt_ge_cases (now - t) (2 ^ 63)) as [Hin|Hout];
    [|apply check_window_far_past; exact Hout].
  destruct (check_window_result (time.Since now t)) as [Hok|Hfail];
    [|exact Hfail].
  apply check_window_in_range in Hok; [|lia].
  unfold within_skew, maxClockSkew in Hok.
  change (5 * time.Minute) with 300000000000 in Hok. lia.
Qed.

Section WebhookProperties.
Context (L : Library).

(** X1. The window check accepts a parsed timestamp exactly when it lies
    within five minutes of the clock reading, before or after, or at
    least 2^63 nanoseconds after it; every other timestamp is rejected
    with "timestamp is outside the 5-minute window". *)
Theorem window_check_exact now t :
  (check_window (time.Since now t) = Ok tt <->
   within_skew now t \/ 2 ^ 63 <= t - now) /\
  (check_window (time.Since now t) = Ok tt \/
   check_window (time.Since now t)
   = Fail (errors_New "timestamp is outside the 5-minute window")).
Proof.
  assert (Hskew : within_skew now t -> Z.abs (now - t) < 2 ^ 63).
  { unfold within_skew, maxClockSkew.
    change (5 * time.Minute) with 300000000000. lia. }
  destruct (Z.lt_ge_cases (Z.abs (now - t)) (2 ^ 63)) as [Hin|Hout].
  - pose proof (check_window_in_range now t Hin) as Hiff.
    split.
    + rewrite Hiff. split; [auto|]. intros [H|H]; [exact H|lia].
    + apply check_window_result.
  - destruct (Z.le_ge_cases 0 (now - t)) as [Hpos|Hneg].
    + assert (Hp : 2 ^ 63 <= now - t) by lia.
      rewrite (check_window_far_past now t Hp). split; [|auto].
      split; [discriminate|]. intros [H|H]; [apply Hskew in H|]; lia.
    + assert (Hf : 2 ^ 63 <= t - now) by lia.
      rewrite (check_window_far_future now t Hf). split; [|auto].
      split; auto.
Qed.

(** X2. The calls of a run are made in the order of the source, each at
    most once and none skipped: the log is [time.Parse], [time.Since],
    the base64 decoding, [pem.Decode], [ParsePKIXPublicKey], [Sum256],
    [VerifyPKCS1v15], [json.Unmarshal], cut at the stage that fails.  The
    timestamp is always parsed, and an event is returned only by a run
    that made all eight calls.  The run stops at the first stage that
    fails, with an error and no further call: after one call when the
    timestamp does not parse, after two when the window check fails,
    after three when the signature header does not decode, after four
    when no PEM block is found, after five when the block does not parse
    or the key is not an RSA key, after seven when the signature is
    refused; when it is accepted the run makes all eight calls. *)
Theorem calls_in_source_order now key payload sigH tsH :
  let run := ConstructWebhookEvent L now key payload sigH tsH in
  map stage_of (log_of run) = seq 0 (List.length (log_of run)) /\
  (1 <= List.length (log_of run) <= 8)%nat /\
  (forall ev, outcome run = Ok ev -> List.length (log_of run) = 8%nat) /\
  (forall e, time_Parse L time.RFC3339 tsH = Fail e -> stops_after run 1) /\
  (forall t,
     time_Parse L time.RFC3339 tsH = Ok t ->
     (forall e, check_window (time.Since now t) = Fail e ->
        stops_after run 2) /\
     (check_window (time.Since now t) = Ok tt ->
      (forall e, base64_StdEncoding_DecodeString L sigH = Fail e ->
         stops_after run 3) /\
      (forall sig,
         base64_StdEncoding_DecodeString L sigH = Ok sig ->
         (pem_Decode L (list_byte_of_string key) = None ->
          stops_after run 4) /\
         (forall block,
            pem_Decode L (list_byte_of_string key) = Some block ->
            (forall e, x509_ParsePKIXPublicKey L (pem_Bytes block) = Fail e ->
               stops_after run 5) /\
            (forall pub,
               x509_ParsePKIXPublicKey L (pem_Bytes block) = Ok pub ->
               (as_rsa_PublicKey pub = None -> stops_after run 5) /\
               (forall rsaPub,
                  as_rsa_PublicKey pub = Some rsaPub ->
                  (forall e,
                     rsa_VerifyPKCS1v15 L rsaPub crypto_SHA256
                       (digest L tsH payload) sig = Some e ->
                     stops_after run 7) /\
                  (rsa_VerifyPKCS1v15 L rsaPub crypto_SHA256
                     (digest L tsH payload) sig = None ->
                   List.length (log_of run) = 8%nat))))))).
Proof.
  intros run.
  assert (Hprefix :
            map stage_of (log_of run) = seq 0 (List.length (log_of run)) /\
            (1 <= List.length (log_of run) <= 8)%nat /\
            (forall ev, outcome run = Ok ev ->
               List.length (log_of run) = 8%nat)).
  { subst run.
    unfold ConstructWebhookEvent, Traced.bind, Traced.call, Traced.fail,
      Traced.lift, or_return, log_of, outcome.
    destruct (time_Parse L time.RFC3339 tsH) as [t|]; cbn;
      [|repeat split; try lia; discriminate].
    destruct (check_window (time.Since now t)) as [[]|]; cbn;
      [|repeat split; try lia; discriminate].
    destruct (base64_StdEncoding_DecodeString L sigH) as [sig|]; cbn;
      [|repeat split; try lia; discriminate].
    destruct (pem_Decode L (list_byte_of_string key)) as [block|]; cbn;
      [|repeat split; try lia; discriminate].
    destruct (x509_ParsePKIXPublicKey L (pem_Bytes block)) as [pub|]; cbn;
      [|repeat split; try lia; discriminate].
    destruct pub as [pub| | | |]; cbn;
      try (repeat split; try lia; discriminate).
    destruct (rsa_VerifyPKCS1v15 L pub crypto_SHA256 _ sig); cbn;
      [repeat split; try lia; discriminate|].
    destruct (json_Unmarshal L payload); cbn; repeat split; lia. }
  destruct Hprefix as (Horder & Hbounds & Hall).
  split; [exact Horder|]. split; [exact Hbounds|]. split; [exact Hall|].
  subst run.
  unfold stops_after, ConstructWebhookEvent, Traced.bind, Traced.call,
    Traced.fail, Traced.lift, or_return, log_of, outcome, digest.
  split.
  { intros e ->. cbn. split; [reflexivity|eexists; reflexivity]. }
  intros t ->. cbn. split.
  { intros e ->. cbn. split; [reflexivity|eexists; reflexivity]. }
  intros ->. cbn. split.
  { intros e ->. cbn. split; [reflexivity|eexists; reflexivity]. }
  intros sig ->. cbn. split.
  { intros ->. cbn. split; [reflexivity|eexists; reflexivity]. }
  intros block ->. cbn. split.
  { intros e ->. cbn. split; [reflexivity|eexists; reflexivity]. }
  intros pub ->. cbn. split.
  { intros ->. cbn. split; [reflexivity|eexists; reflexivity]. }
  intros rsaPub ->. cbn. split.
  { intros e ->. cbn. split; [reflexivity|eexists; reflexivity]. }
  intros ->. cbn. destruct (json_Unmarshal L payload); reflexivity.
Qed.

(** X3. Every error [ConstructWebhookEvent] returns has one of the seven
    kinds, and the number of calls the run made tells which stage
    failed: one call for a timestamp that does not parse, two for a
    timestamp outside the window, three for a signature header that does
    not decode, four for a key text without a PEM block, five for a
    block that does not parse or holds a key that is not RSA, seven for
    a signature that does not verify, eight for a payload that does not
    decode. *)
Theorem failure_classified now key payload sigH tsH e :
  let run := ConstructWebhookEvent L now key payload sigH tsH in
  outcome run = Fail e ->
  match List.length (log_of run) with
  | 1%nat => kind_of e = Some TimestampParseError
  | 2%nat => kind_of e = Some TimestampExpiredError
  | 3%nat => kind_of e = Some SignatureDecodeError
  | 4%nat => kind_of e = Some PublicKeyParseError
  | 5%nat => kind_of e = Some PublicKeyParseError \/
             kind_of e = Some UnsupportedKeyTypeError
  | 7%nat => kind_of e = Some SignatureVerificationError
  | 8%nat => kind_of e = Some PayloadDecodeError
  | _ => False
  end.
Proof.
  unfold ConstructWebhookEvent, Traced.bind, Traced.call, Traced.fail,
    Traced.lift, or_return, log_of, outcome.
  destruct (time_Parse L time.RFC3339 tsH) as [t|]; cbn;
    [|intros [= <-]; reflexivity].
  destruct (check_window_result (time.Since now t)) as [Hw|Hw]; rewrite Hw;
    cbn; [|intros [= <-]; reflexivity].
  destruct (base64_StdEncoding_DecodeString L sigH) as [sig|]; cbn;
    [|intros [= <-]; reflexivity].
  destruct (pem_Decode L (list_byte_of_string key)) as [block|]; cbn;
    [|intros [= <-]; reflexivity].
  destruct (x509_ParsePKIXPublicKey L (pem_Bytes block)) as [pub|]; cbn;
    [|intros [= <-]; left; reflexivity].
  destruct pub as [pub| | | |]; cbn;
    try (intros [= <-]; right; reflexivity).
  destruct (rsa_VerifyPKCS1v15 L pub crypto_SHA256 _ sig); cbn;
    [intros [= <-]; reflexivity|].
  destruct (json_Unmarshal L payload); cbn; [discriminate|].
  intros [= <-]. reflexivity.
Qed.

(** X4. [ConstructWebhookEvent] returns the event [ev] exactly when the
    timestamp parses and passes the window check, the signature header
    decodes, the key text holds an RSA key, the signature verifies
    against the digest of [timestamp . payload], and the payload decodes
    to [ev]. *)
Theorem event_returned_exactly_when now key payload sigH tsH ev :
  outcome (ConstructWebhookEvent L now key payload sigH tsH) = Ok ev <->
  exists sig pub,
    reaches_verification L now key sigH tsH sig pub /\
    rsa_VerifyPKCS1v15 L pub crypto_SHA256 (digest L tsH payload) sig = None /\
    json_Unmarshal L payload = Ok ev.
Proof.
  split.
  - intros Hev.
    destruct (reaches_verification_dec L now key sigH tsH)
      as [(sig & pub & Hr)|Hn].
    + exists sig, pub. split; [exact Hr|].
      destruct (run_from_verification L now key payload sigH tsH sig pub Hr)
        as (pre & _ & Hrun).
      cbv zeta in Hrun. rewrite Hrun in Hev.
      destruct (rsa_VerifyPKCS1v15 L pub crypto_SHA256 _ sig);
        cbn in Hev; [discriminate|].
      split; [reflexivity|]. eapply or_return_Ok. exact Hev.
    + destruct (run_before_verification L now key payload sigH tsH Hn)
        as [_ [e He]].
      rewrite He in Hev. discriminate.
  - intros (sig & pub & Hr & Hv & Hj).
    destruct (run_from_verification L now key payload sigH tsH sig pub Hr)
      as (pre & _ & Hrun).
    cbv zeta in Hrun. rewrite Hv in Hrun. rewrite Hrun. cbn.
    rewrite Hj. reflexivity.
Qed.

(** X5. A timestamp more than five minutes before the clock reading, by
    any amount, or more than five minutes and less than 2^63 nanoseconds
    after it, is rejected before anything else is looked at: whatever
    the key, the payload and the signature, the run makes the two calls
    into [time] and fails with "timestamp is outside the 5-minute
    window".  A delivery that was accepted is refused when replayed more
    than five minutes after its timestamp. *)
Theorem stale_timestamp_rejected now key payload sigH tsH t :
  time_Parse L time.RFC3339 tsH = Ok t ->
  5 * time.Minute < now - t \/ 5 * time.Minute < t - now < 2 ^ 63 ->
  ConstructWebhookEvent L now key payload sigH tsH
  = ([call_time_Parse time.RFC3339 tsH; call_time_Since t],
     Fail (errors_New "timestamp is outside the 5-minute window")).
Proof.
  intros Hp Hd.
  pose proof (check_window_outside now t Hd) as Hw.
  unfold ConstructWebhookEvent, Traced.bind, Traced.call, Traced.lift,
    or_return.
  rewrite Hp, Hw. reflexivity.
Qed.

(** X6. The label of the PEM block is not looked at: a key text whose
    block carries another label than PUBLIC KEY, around the same bytes,
    gives the same run. *)
Theorem pem_label_ignored label now key payload sigH tsH :
  ConstructWebhookEvent (relabelled L label) now key payload sigH tsH
  = ConstructWebhookEvent L now key payload sigH tsH.
Proof.
  unfold ConstructWebhookEvent, relabelled. cbn.
  destruct (pem_Decode L (list_byte_of_string key)); reflexivity.
Qed.

End WebhookProperties.

(** ** The bytes that are signed *)

Lemma split_at_first {A} (x : A) (l1 l2 r1 r2 : list A) :
  ~ In x l1 -> ~ In x l2 ->
  l1 ++ x :: r1 = l2 ++ x :: r2 -> l1 = l2 /\ r1 = r2.
Proof.
  revert l2. induction l1 as [|a l1 IH]; intros [|b l2] H1 H2 Heq; cbn in *.
  - injection Heq as ->. auto.
  - injection Heq as <- _. exfalso. apply H2. auto.
  - injection Heq as -> _. exfalso. apply H1. auto.
  - injection Heq as -> Heq.
    destruct (IH l2) as [-> ->]; auto.
Qed.

Lemma dot_free_not_in s : dot_free s -> ~ In x2e (list_byte_of_string s).
Proof.
  unfold dot_free. rewrite forallb_forall. intros Hall Hin.
  specialize (Hall _ Hin). discriminate.
Qed.

Lemma list_byte_of_string_app s1 s2 :
  list_byte_of_string (s1 ++ s2)
  = list_byte_of_string s1 ++ list_byte_of_string s2.
Proof.
  induction s1 as [|a s1 IH]; [reflexivity|].
  change (list_byte_of_string (String a s1 ++ s2))
    with (byte_of_ascii a :: list_byte_of_string (s1 ++ s2)).
  rewrite IH. reflexivity.
Qed.

(** X7. For timestamp headers without a dot, the signed bytes determine
    the timestamp and the payload: two deliveries with the same signed
    bytes have the same timestamp header and the same payload.  With a
    dot inside the timestamp header this fails: a dot that starts the
    payload can be moved to the end of the timestamp header without
    changing the signed bytes. *)
Theorem signed_bytes_unambiguous :
  (forall ts ts' payload payload',
     dot_free ts -> dot_free ts' ->
     signed_data ts payload = signed_data ts' payload' ->
     ts = ts' /\ payload = payload') /\
  (forall ts payload,
     signed_data (ts ++ ".") payload = signed_data ts (x2e :: payload)).
Proof.
  split.
  - intros ts ts' payload payload' Hd Hd' Heq. unfold signed_data in Heq.
    rewrite <- !app_assoc in Heq. cbn [app] in Heq.
    destruct (split_at_first _ _ _ _ _ (dot_free_not_in _ Hd)
                (dot_free_not_in _ Hd') Heq) as [Hts Hp].
    split; [|exact Hp].
    rewrite <- (string_of_list_byte_of_string ts),
      <- (string_of_list_byte_of_string ts'), Hts. reflexivity.
  - intros ts payload. unfold signed_data.
    rewrite list_byte_of_string_app, <- !app_assoc. reflexivity.
Qed.

(** * Further properties of the endpoint methods *)

Section EndpointProperties.
Context (G : Generated) (GC : GeneratedCustomers).

Ltac run_endpoint :=
  unfold ListProducts, ListEntitlements, GetActiveSubscription, ListCustomers,
    GetCustomerInfo, read_envelope, Traced.bind, Traced.call, Traced.fail,
    Traced.lift, Traced.ret.

Ltac status_ok H := rewrite H; rewrite Z.eqb_refl; cbn [negb].

(** X8. Every endpoint method reports a response whose status is not
    200 as the error "unexpected status code" with the code, whatever
    the body holds. *)
Theorem unexpected_status_reported environment customerEmail limit cursor :
  reports_status call_GetTenantProducts (GetTenantProducts G)
    (ListProducts G) /\
  reports_status (call_GetTenantEntitlementsByEnvironment environment)
    (GetTenantEntitlementsByEnvironment G environment)
    (ListEntitlements G environment) /\
  reports_status (call_PostTenantSubscriptionsActive customerEmail)
    (PostTenantSubscriptionsActive G customerEmail)
    (GetActiveSubscription G customerEmail) /\
  reports_status (call_GetTenantServerCustomers limit cursor)
    (GetTenantServerCustomers GC limit cursor)
    (ListCustomers GC limit cursor) /\
  reports_status (call_PostTenantServerCustomer customerEmail)
    (PostTenantServerCustomer GC customerEmail)
    (GetCustomerInfo GC customerEmail).
Proof.
  repeat split; intros resp Hr Hs; run_endpoint; rewrite Hr;
    destruct (Z.eqb_spec (StatusCode resp) http_StatusOK);
    try contradiction; reflexivity.
Qed.

(** X9. Every endpoint method returns an error of the transport, of
    reading the body, or of decoding it, as the error it is, without
    wrapping it, and sends nothing more. *)
Theorem transport_errors_passed_on environment customerEmail limit cursor :
  passes_errors call_GetTenantProducts (GetTenantProducts G)
    (json_Unmarshal_products G) (ListProducts G) /\
  passes_errors (call_GetTenantEntitlementsByEnvironment environment)
    (GetTenantEntitlementsByEnvironment G environment)
    (json_Unmarshal_entitlements G) (ListEntitlements G environment) /\
  passes_errors (call_PostTenantSubscriptionsActive customerEmail)
    (PostTenantSubscriptionsActive G customerEmail)
    (json_Unmarshal_subscription G) (GetActiveSubscription G customerEmail) /\
  passes_errors (call_GetTenantServerCustomers limit cursor)
    (GetTenantServerCustomers GC limit cursor)
    (json_Unmarshal_customers GC) (ListCustomers GC limit cursor) /\
  passes_errors (call_PostTenantServerCustomer customerEmail)
    (PostTenantServerCustomer GC customerEmail)
    (json_Unmarshal_customer GC) (GetCustomerInfo GC customerEmail).
Proof.
  repeat split.
  all: try (intros e Hr; run_endpoint; rewrite Hr; reflexivity).
  all: try (intros resp e Hr Hs Hb; run_endpoint; rewrite Hr; status_ok Hs;
            rewrite Hb; reflexivity).
  all: intros resp body e Hr Hs Hb Hu; run_endpoint; rewrite Hr; status_ok Hs;
    rewrite Hb, Hu; reflexivity.
Qed.

(** X10. When the decoded body of the response carries a non-empty error
    string, [GetActiveSubscription], [ListCustomers] and
    [GetCustomerInfo] fail with that string as the error, whatever data
    the body carries beside it. *)
Theorem error_string_surfaced customerEmail limit cursor s :
  s <> EmptyString ->
  (forall env,
     decodes_to (PostTenantSubscriptionsActive G customerEmail)
       (json_Unmarshal_subscription G) env ->
     Error env = Some s ->
     outcome (GetActiveSubscription G customerEmail)
     = Fail (errors_New s)) /\
  (forall page,
     decodes_to (GetTenantServerCustomers GC limit cursor)
       (json_Unmarshal_customers GC) page ->
     ListCustomerResponseBody_Error GC page = Some s ->
     outcome (ListCustomers GC limit cursor) = Fail (errors_New s)) /\
  (forall env,
     decodes_to (PostTenantServerCustomer GC customerEmail)
       (json_Unmarshal_customer GC) env ->
     Error env = Some s ->
     outcome (GetCustomerInfo GC customerEmail) = Fail (errors_New s)).
Proof.
  intros Hne. pose proof (error_string_set s Hne) as Hset.
  repeat split; intros env (resp & body & Hr & Hs & Hb & Hu) He;
    run_endpoint; rewrite Hr; status_ok Hs; rewrite Hb, Hu; cbn;
    rewrite He, Hset; reflexivity.
Qed.

(** X11. When the response is read and decoded and carries no error
    string (none, or the empty one), each endpoint method returns what
    the body carries, unchanged, with a nil error: the listed products
    and entitlements in their order, the subscription or customer row if
    there is one and nil if there is none, and for [ListCustomers] the
    decoded body itself. *)
Theorem decoded_data_returned environment customerEmail limit cursor :
  (forall env data,
     decodes_to (GetTenantProducts G) (json_Unmarshal_products G) env ->
     Error env = None \/ Error env = Some EmptyString ->
     Data env = Some data ->
     outcome (ListProducts G) = Ok data) /\
  (forall env data,
     decodes_to (GetTenantEntitlementsByEnvironment G environment)
       (json_Unmarshal_entitlements G) env ->
     Error env = None \/ Error env = Some EmptyString ->
     Data env = Some data ->
     outcome (ListEntitlements G environment) = Ok data) /\
  (forall env,
     decodes_to (PostTenantSubscriptionsActive G customerEmail)
       (json_Unmarshal_subscription G) env ->
     Error env = None \/ Error env = Some EmptyString ->
     outcome (GetActiveSubscription G customerEmail) = Ok (Data env)) /\
  (forall page,
     decodes_to (GetTenantServerCustomers GC limit cursor)
       (json_Unmarshal_customers GC) page ->
     ListCustomerResponseBody_Error GC page = None \/
     ListCustomerResponseBody_Error GC page = Some EmptyString ->
     outcome (ListCustomers GC limit cursor) = Ok page) /\
  (forall env,
     decodes_to (PostTenantServerCustomer GC customerEmail)
       (json_Unmarshal_customer GC) env ->
     Error env = None \/ Error env = Some EmptyString ->
     outcome (GetCustomerInfo GC customerEmail) = Ok (Data env)).
Proof.
  split; [|split; [|split; [|split]]].
  - intros env data (resp & body & Hr & Hs & Hb & Hu) He Hd.
    run_endpoint. rewrite Hr. status_ok Hs. rewrite Hb, Hu. cbn.
    rewrite (error_string_unset _ He). cbn. rewrite Hd. reflexivity.
  - intros env data (resp & body & Hr & Hs & Hb & Hu) He Hd.
    run_endpoint. rewrite Hr. status_ok Hs. rewrite Hb, Hu. cbn.
    rewrite (error_string_unset _ He). cbn. rewrite Hd. reflexivity.
  - intros env (resp & body & Hr & Hs & Hb & Hu) He.
    run_endpoint. rewrite Hr. status_ok Hs. rewrite Hb, Hu. cbn.
    rewrite (error_string_unset _ He). reflexivity.
  - intros env (resp & body & Hr & Hs & Hb & Hu) He.
    run_endpoint. rewrite Hr. status_ok Hs. rewrite Hb, Hu. cbn.
    rewrite (error_string_unset _ He). reflexivity.
  - intros env (resp & body & Hr & Hs & Hb & Hu) He.
    run_endpoint. rewrite Hr. status_ok Hs. rewrite Hb, Hu. cbn.
    rewrite (error_string_unset _ He). reflexivity.
Qed.

End EndpointProperties.

(** * Further properties of the active-product and active-entitlement
      lookups *)

Section JoinProperties.
Context (G : Generated).

Lemma find_first_with {A} (P : A -> Prop) (f : A -> bool) (l : list A) x :
  (forall a, f a = true <-> P a) ->
  find f l = Some x <-> first_with P l x.
Proof.
  intros Hf. induction l as [|a l IH]; cbn.
  - split; [discriminate|]. intros ([|] & ? & [=] & _).
  - destruct (f a) eqn:Ha.
    + split.
      * intros [= <-]. exists [], l. rewrite <- Hf. auto.
      * intros ([|b before] & after & Heq & HP & Hnot).
        -- injection Heq as <- _. reflexivity.
        -- injection Heq as <- _. exfalso.
           apply (Hnot a); [left; reflexivity|]. apply Hf. exact Ha.
    + rewrite IH. split.
      * intros (before & after & -> & HP & Hnot).
        exists (a :: before), after. split; [reflexivity|]. split; [exact HP|].
        intros y [<-|Hy]; [|auto]. rewrite <- Hf. congruence.
      * intros ([|b before] & after & Heq & HP & Hnot).
        -- injection Heq as <- _. apply Hf in HP. congruence.
        -- injection Heq as <- ->. exists before, after.
           split; [reflexivity|]. split; [exact HP|].
           intros y Hy. apply Hnot. right. exact Hy.
Qed.

Lemma subscription_log customerEmail :
  log_of (GetActiveSubscription G customerEmail)
  = [call_PostTenantSubscriptionsActive customerEmail].
Proof.
  unfold GetActiveSubscription, read_envelope, Traced.bind, Traced.call,
    Traced.fail, Traced.lift, Traced.ret, log_of.
  destruct (PostTenantSubscriptionsActive G customerEmail) as [resp|];
    [|reflexivity].
  destruct (negb (StatusCode resp =? http_StatusOK)); [reflexivity|].
  destruct (Body resp) as [body|]; [|reflexivity].
  destruct (json_Unmarshal_subscription G body) as [env|]; [|reflexivity].
  cbn. destruct (error_string (Error env)); reflexivity.
Qed.

Lemma products_log : log_of (ListProducts G) = [call_GetTenantProducts].
Proof.
  unfold ListProducts, read_envelope, Traced.bind, Traced.call,
    Traced.fail, Traced.lift, Traced.ret, log_of.
  destruct (GetTenantProducts G) as [resp|]; [|reflexivity].
  destruct (negb (StatusCode resp =? http_StatusOK)); [reflexivity|].
  destruct (Body resp) as [body|]; [|reflexivity].
  destruct (json_Unmarshal_products G body) as [env|]; [|reflexivity].
  cbn. destruct (error_string (Error env)); [reflexivity|].
  destruct (Data env); reflexivity.
Qed.

Lemma entitlements_log environment :
  log_of (ListEntitlements G environment)
  = [call_GetTenantEntitlementsByEnvironment environment].
Proof.
  unfold ListEntitlements, read_envelope, Traced.bind, Traced.call,
    Traced.fail, Traced.lift, Traced.ret, log_of.
  destruct (GetTenantEntitlementsByEnvironment G environment) as [resp|];
    [|reflexivity].
  destruct (negb (StatusCode resp =? http_StatusOK)); [reflexivity|].
  destruct (Body resp) as [body|]; [|reflexivity].
  destruct (json_Unmarshal_entitlements G body) as [env|]; [|reflexivity].
  cbn. destruct (error_string (Error env)); [reflexivity|].
  destruct (Data env); reflexivity.
Qed.

(** The three lookups, with the runs of the calls they are made of
    named. *)
Lemma product_lookup_run customerEmail l1 r1 l2 r2 :
  GetActiveSubscription G customerEmail = (l1, r1) ->
  ListProducts G = (l2, r2) ->
  GetActiveProduct G customerEmail =
    match r1 with
    | Fail e => (l1, Fail e)
    | Ok None => (l1, Ok None)
    | Ok (Some sub) =>
        match r2 with
        | Fail e => (l1 ++ l2, Fail e)
        | Ok products =>
            (l1 ++ l2, Ok (range_products G (slice_range products) sub))
        end
    end.
Proof.
  intros H1 H2. unfold GetActiveProduct, Traced.bind, Traced.ret.
  rewrite H1, H2.
  destruct r1 as [[sub|]|e]; [destruct r2| |]; rewrite ?app_nil_r;
    reflexivity.
Qed.

Lemma entitlement_lookup_run customerEmail environment l1 r1 l2 r2 :
  GetActiveProduct G customerEmail = (l1, r1) ->
  ListEntitlements G environment = (l2, r2) ->
  GetActiveEntitlement G customerEmail environment =
    match r1 with
    | Fail e => (l1, Fail e)
    | Ok None => (l1, Ok None)
    | Ok (Some product) =>
        match r2 with
        | Fail e => (l1 ++ l2, Fail e)
        | Ok entitlements =>
            (l1 ++ l2,
             Ok (range_entitlements G (slice_range entitlements) product))
        end
    end.
Proof.
  intros H1 H2. unfold GetActiveEntitlement, Traced.bind, Traced.ret.
  rewrite H1, H2.
  destruct r1 as [[product|]|e]; [destruct r2| |]; rewrite ?app_nil_r;
    reflexivity.
Qed.

Lemma run_parts {C A} (m : M C A) : m = (log_of m, outcome m).
Proof. destruct m; reflexivity. Qed.

(** X12. When the customer has an active subscription and the products
    are listed, [GetActiveProduct] returns the product [p] exactly when
    [p] is the first listed product whose identifier is the
    subscription's product reference; with several such products the
    later ones are never returned. *)
Theorem active_product_is_first_match customerEmail sub products p :
  outcome (GetActiveSubscription G customerEmail) = Ok (Some sub) ->
  outcome (ListProducts G) = Ok products ->
  outcome (GetActiveProduct G customerEmail) = Ok (Some p) <->
  first_with
    (fun q => TenantProduct_ProductId G q
              = StorableSubscription_ProductId G sub)
    (slice_range products) p.
Proof.
  intros Hs Hp.
  rewrite (product_lookup_run customerEmail _ _ _ _
             (run_parts _) (run_parts _)).
  rewrite Hs, Hp. cbn [outcome snd].
  rewrite range_products_find. unfold product_of.
  rewrite <- (find_first_with
                (fun q => TenantProduct_ProductId G q
                          = StorableSubscription_ProductId G sub)
                (fun q => if ProductRef_eq_dec G (TenantProduct_ProductId G q)
                               (StorableSubscription_ProductId G sub)
                          then true else false)).
  - split; [intros [= ->]|intros ->]; reflexivity.
  - intros q. destruct (ProductRef_eq_dec G _ _); split; congruence.
Qed.

(** X13. When the customer has an active product and the entitlements of
    the environment are listed, [GetActiveEntitlement] returns the
    entitlement [e] exactly when [e] is the first listed entitlement
    whose identifier is the product's entitlement reference. *)
Theorem active_entitlement_is_first_match
    customerEmail environment product entitlements e :
  outcome (GetActiveProduct G customerEmail) = Ok (Some product) ->
  outcome (ListEntitlements G environment) = Ok entitlements ->
  outcome (GetActiveEntitlement G customerEmail environment) = Ok (Some e) <->
  first_with
    (fun x => TenantEntitlement_Id G x
              = TenantProduct_EntitlementId G product)
    (slice_range entitlements) e.
Proof.
  intros Hp He.
  rewrite (entitlement_lookup_run customerEmail environment _ _ _ _
             (run_parts _) (run_parts _)).
  rewrite Hp, He. cbn [outcome snd].
  rewrite range_entitlements_find. unfold entitlement_of.
  rewrite <- (find_first_with
                (fun x => TenantEntitlement_Id G x
                          = TenantProduct_EntitlementId G product)
                (fun x => if EntitlementRef_eq_dec G (TenantEntitlement_Id G x)
                               (TenantProduct_EntitlementId G product)
                          then true else false)).
  - split; [intros [= ->]|intros ->]; reflexivity.
  - intros q. destruct (EntitlementRef_eq_dec G _ _); split; congruence.
Qed.

(** X14. [GetActiveEntitlement] sends at most three requests, in the
    order subscription, products, entitlements, and never one of them
    twice; the products are requested only when there is an active
    subscription, and the entitlements only when a product matched. *)
Theorem lookup_requests customerEmail environment :
  let subscription := call_PostTenantSubscriptionsActive customerEmail in
  let products := call_GetTenantProducts in
  let entitlements := call_GetTenantEntitlementsByEnvironment environment in
  let log := log_of (GetActiveEntitlement G customerEmail environment) in
  (log = [subscription] \/ log = [subscription; products] \/
   log = [subscription; products; entitlements]) /\
  (In products log <->
   exists sub,
     outcome (GetActiveSubscription G customerEmail) = Ok (Some sub)) /\
  (In entitlements log <->
   exists product,
     outcome (GetActiveProduct G customerEmail) = Ok (Some product)).
Proof.
  cbv zeta.
  rewrite (entitlement_lookup_run customerEmail environment _ _ _ _
             (run_parts _) (run_parts _)).
  rewrite (product_lookup_run customerEmail _ _ _ _
             (run_parts _) (run_parts _)).
  rewrite subscription_log, products_log, entitlements_log.
  generalize (outcome (GetActiveSubscription G customerEmail)),
    (outcome (ListProducts G)), (outcome (ListEntitlements G environment)).
  intros [[sub|]|e1] [products|e2] [entitlements|e3];
    cbn [log_of outcome fst snd app In];
    try destruct (range_products G (slice_range products) sub);
    cbn [log_of outcome fst snd app In];
    repeat split; intros;
    repeat match goal with
      | H : _ \/ _ |- _ => destruct H
      | H : exists _, _ |- _ => destruct H
      | H : False |- _ => destruct H
      end;
    try discriminate; eauto 6.
Qed.

(** X15. An error of one of the three requests is the error of the whole
    lookup, unchanged: [GetActiveProduct] and [GetActiveEntitlement]
    fail with the error of the subscription request, or, with a
    subscription, the error of the product list; [GetActiveEntitlement]
    fails, with a product, with the error of the entitlement list. *)
Theorem lookup_errors_passed_on customerEmail environment e :
  (outcome (GetActiveSubscription G customerEmail) = Fail e ->
   outcome (GetActiveProduct G customerEmail) = Fail e /\
   outcome (GetActiveEntitlement G customerEmail environment) = Fail e) /\
  (forall sub,
     outcome (GetActiveSubscription G customerEmail) = Ok (Some sub) ->
     outcome (ListProducts G) = Fail e ->
     outcome (GetActiveProduct G customerEmail) = Fail e /\
     outcome (GetActiveEntitlement G customerEmail environment) = Fail e) /\
  (forall product,
     outcome (GetActiveProduct G customerEmail) = Ok (Some product) ->
     outcome (ListEntitlements G environment) = Fail e ->
     outcome (GetActiveEntitlement G customerEmail environment) = Fail e).
Proof.
  split; [|split].
  - intros Hs.
    assert (Hp : outcome (GetActiveProduct G customerEmail) = Fail e).
    { rewrite (product_lookup_run customerEmail _ _ _ _
                 (run_parts _) (run_parts _)), Hs. reflexivity. }
    split; [exact Hp|].
    rewrite (entitlement_lookup_run customerEmail environment _ _ _ _
               (run_parts _) (run_parts _)), Hp. reflexivity.
  - intros sub Hs Hl.
    assert (Hp : outcome (GetActiveProduct G customerEmail) = Fail e).
    { rewrite (product_lookup_run customerEmail _ _ _ _
                 (run_parts _) (run_parts _)), Hs, Hl. reflexivity. }
    split; [exact Hp|].
    rewrite (entitlement_lookup_run customerEmail environment _ _ _ _
               (run_parts _) (run_parts _)), Hp. reflexivity.
  - intros product Hp Hl.
    rewrite (entitlement_lookup_run customerEmail environment _ _ _ _
               (run_parts _) (run_parts _)), Hp, Hl. reflexivity.
Qed.

End JoinProperties.

(** * Properties of [NewCrosspayServerClient] *)

Section ConstructorProperties.
Context {Client : Type} (NewClient : string -> RequestEditorFn -> result Client).

(** X16. The client is made for the first [baseURL] argument when there
    is one and it is not empty, and for https://api.crosspay.dev
    otherwise (no argument, or an empty first argument), so never for an
    empty URL; arguments after the first are ignored.  The constructor fails exactly when [NewClient] fails for
    that URL, with the same error, and otherwise returns a client that
    holds what [NewClient] returned and the API key. *)
Theorem client_url_and_key apiKey baseURL :
  base_url baseURL <> EmptyString /\
  (forall b rest, base_url (b :: rest) = base_url [b]) /\
  (forall b, b <> EmptyString -> base_url [b] = b) /\
  base_url [] = base_url [EmptyString] /\
  base_url [] = "https://api.crosspay.dev"%string /\
  (forall rest,
     base_url (EmptyString :: rest) = "https://api.crosspay.dev"%string) /\
  (forall e,
     NewCrosspayServerClient NewClient apiKey baseURL = Fail e <->
     NewClient (base_url baseURL) (api_key_editor apiKey) = Fail e) /\
  (forall c,
     NewCrosspayServerClient NewClient apiKey baseURL = Ok c <->
     exists generated,
       NewClient (base_url baseURL) (api_key_editor apiKey) = Ok generated /\
       c = {| client := generated; apiKey := apiKey |}).
Proof.
  split; [|split; [|split; [|split; [|split; [|split; [|split]]]]]].
  - unfold base_url. destruct baseURL as [|b rest]; [discriminate|].
    destruct (String.eqb_spec b EmptyString); cbn; [discriminate|assumption].
  - reflexivity.
  - intros b Hb. unfold base_url.
    destruct (String.eqb_spec b EmptyString); [contradiction|reflexivity].
  - reflexivity.
  - reflexivity.
  - reflexivity.
  - intros e. unfold NewCrosspayServerClient. cbv zeta.
    destruct (NewClient (base_url baseURL) (api_key_editor apiKey));
      split; congruence.
  - intros c. unfold NewCrosspayServerClient. cbv zeta.
    destruct (NewClient (base_url baseURL) (api_key_editor apiKey)) as [g|e].
    + split.
      * intros [= <-]. exists g. auto.
      * intros (g' & [= <-] & ->). reflexivity.
    + split; [discriminate|]. intros (g' & [=] & _).
Qed.

End ConstructorProperties.

Lemma find_filter {A} (f g : A -> bool) (l : list A) :
  (forall x, f x = true -> g x = true) ->
  find f (filter g l) = find f l.
Proof.
  intros Hfg. induction l as [|a l IH]; [reflexivity|]. cbn.
  destruct (g a) eqn:Hg; cbn.
  - destruct (f a); [reflexivity|exact IH].
  - destruct (f a) eqn:Hf; [|exact IH].
    apply Hfg in Hf. congruence.
Qed.

(** X17. The request editor the client is given returns no error and
    sets the header field api-key, under its canonical spelling Api-Key,
    to the API key: after it the field holds that one value, whatever it
    held before and under whatever spelling of the name it is read, and
    every other field holds what it held. *)
Theorem api_key_attached apiKey header :
  let edited := fst (api_key_editor apiKey header) in
  snd (api_key_editor apiKey header) = None /\
  (forall key,
     CanonicalMIMEHeaderKey key = "Api-Key"%string ->
     Header_Values edited key = [apiKey] /\ Header_Get edited key = apiKey) /\
  (forall key,
     CanonicalMIMEHeaderKey key <> "Api-Key"%string ->
     Header_Values edited key = Header_Values header key).
Proof.
  cbv zeta. unfold api_key_editor. cbn [fst snd].
  assert (Hset : Header_Set header "api-key" apiKey
                 = ("Api-Key"%string, [apiKey])
                   :: filter (fun kv => negb (String.eqb (fst kv) "Api-Key"))
                        header) by reflexivity.
  rewrite Hset. split; [reflexivity|]. split.
  - intros key Hk. unfold Header_Get, Header_Values. cbv zeta. rewrite Hk.
    cbn. auto.
  - intros key Hk. unfold Header_Values. cbv zeta. cbn [find fst].
    destruct (String.eqb_spec "Api-Key" (CanonicalMIMEHeaderKey key))
      as [Heq|_]; [congruence|].
    rewrite find_filter; [reflexivity|].
    intros kv Hf. apply String.eqb_eq in Hf. rewrite Hf.
    apply negb_true_iff. apply String.eqb_neq. exact Hk.
Qed.

(** * Errors of the library inside the errors of [ConstructWebhookEvent] *)

Section WrappedErrors.
Context (L : Library).

(** X18. When [ConstructWebhookEvent] fails, the error it returns wraps
    an error exactly when the stage that failed is the parsing of the
    timestamp, the decoding of the signature header, the parsing of the
    key or the decoding of the payload, and the wrapped error is the one
    the library returned there; the errors for a timestamp outside the
    window, a missing PEM block, a key that is not RSA and a failed
    signature check wrap nothing, so the cause of a failed signature
    check cannot be read from the error. *)
Theorem library_errors_wrapped now key payload sigH tsH e :
  let run := ConstructWebhookEvent L now key payload sigH tsH in
  outcome run = Fail e ->
  match List.length (log_of run) with
  | 1%nat => exists cause,
      time_Parse L time.RFC3339 tsH = Fail cause /\
      errors_Unwrap e = Some cause
  | 3%nat => exists cause,
      base64_StdEncoding_DecodeString L sigH = Fail cause /\
      errors_Unwrap e = Some cause
  | 5%nat =>
      (exists block cause,
         pem_Decode L (list_byte_of_string key) = Some block /\
         x509_ParsePKIXPublicKey L (pem_Bytes block) = Fail cause /\
         errors_Unwrap e = Some cause) \/
      (kind_of e = Some UnsupportedKeyTypeError /\ errors_Unwrap e = None)
  | 8%nat => exists cause,
      json_Unmarshal L payload = Fail cause /\ errors_Unwrap e = Some cause
  | _ => errors_Unwrap e = None
  end.
Proof.
  unfold ConstructWebhookEvent, Traced.bind, Traced.call, Traced.fail,
    Traced.lift, or_return, log_of, outcome.
  destruct (time_Parse L time.RFC3339 tsH) as [t|c1]; cbn;
    [|intros [= <-]; eauto].
  destruct (check_window_result (time.Since now t)) as [Hw|Hw]; rewrite Hw;
    cbn; [|intros [= <-]; reflexivity].
  destruct (base64_StdEncoding_DecodeString L sigH) as [sig|c3]; cbn;
    [|intros [= <-]; eauto].
  destruct (pem_Decode L (list_byte_of_string key)) as [block|]; cbn;
    [|intros [= <-]; reflexivity].
  destruct (x509_ParsePKIXPublicKey L (pem_Bytes block)) as [pub|c5] eqn:Hk;
    cbn; [|intros [= <-]; left; eauto].
  destruct pub as [pub| | | |]; cbn;
    try (intros [= <-]; right; split; reflexivity).
  destruct (rsa_VerifyPKCS1v15 L pub crypto_SHA256 _ sig); cbn;
    [intros [= <-]; reflexivity|].
  destruct (json_Unmarshal L payload) as [ev|c8]; cbn; [discriminate|].
  intros [= <-]. eauto.
Qed.

End WrappedErrors.

(** * Runs for the further properties *)

Section PropertyRuns.
Import Vectors.

Lemma failure_classified_witness :
  kind_of (fmt_Errorf "failed to decode signature: %w"
             (errors_New "illegal base64 data"))
  = Some SignatureDecodeError.
Proof.
  pose proof (failure_classified GoStd.lib now rsa_key_pem payload "!"
                timestamp
                (fmt_Errorf "failed to decode signature: %w"
                   (errors_New "illegal base64 data"))
                ltac:(vm_compute; reflexivity)) as W.
  vm_compute in W. vm_compute. exact W.
Defined.

Lemma stale_timestamp_rejected_witness :
  ConstructWebhookEvent GoStd.lib (now + 6 * time.Minute) rsa_key_pem payload
    signature timestamp
  = ([call_time_Parse time.RFC3339 timestamp;
      call_time_Since (instant timestamp)],
     Fail (errors_New "timestamp is outside the 5-minute window")).
Proof.
  apply (stale_timestamp_rejected GoStd.lib (now + 6 * time.Minute)
           rsa_key_pem payload signature timestamp (instant timestamp)).
  - vm_compute. reflexivity.
  - left. vm_compute. reflexivity.
Defined.

Lemma signed_bytes_unambiguous_witness :
  dot_free timestamp /\
  signed_data timestamp payload = signed_data timestamp payload /\
  timestamp = timestamp /\ payload = payload.
Proof.
  assert (Hd : dot_free timestamp) by (vm_compute; reflexivity).
  split; [exact Hd|]. split; [reflexivity|].
  exact (proj1 signed_bytes_unambiguous timestamp timestamp payload payload
           Hd Hd eq_refl).
Defined.

Lemma library_errors_wrapped_witness :
  exists cause,
    json_Unmarshal GoStd.lib text_payload = Fail cause /\
    errors_Unwrap
      (fmt_Errorf "failed to parse webhook payload: %w"
         (errors_New "json: cannot unmarshal into the event type"))
    = Some cause.
Proof.
  pose proof (library_errors_wrapped GoStd.lib now rsa_key_pem text_payload
                text_signature timestamp
                (fmt_Errorf "failed to parse webhook payload: %w"
                   (errors_New "json: cannot unmarshal into the event type"))
                ltac:(vm_compute; reflexivity)) as W.
  vm_compute in W. vm_compute. exact W.
Defined.

End PropertyRuns.

Section EndpointRuns.
Import Remote.

Lemma unexpected_status_reported_witness :
  ListProducts (RemoteStatus.answering RemoteStatus.unavailable)
  = ([call_GetTenantProducts],
     Fail (fmt_Errorf_d "unexpected status code: %d" 503)).
Proof.
  apply (proj1 (unexpected_status_reported
                  (RemoteStatus.answering RemoteStatus.unavailable)
                  (RemoteCustomers.serving 503 RemoteCustomers.first_page
                     no_data)
                  "production" "user@example.com" None None)
           _ eq_refl).
  discriminate.
Defined.

Lemma transport_errors_passed_on_witness :
  GetActiveSubscription (RemoteStatus.answering RemoteStatus.refused)
    "user@example.com"
  = ([call_PostTenantSubscriptionsActive "user@example.com"],
     Fail (errors_New "dial tcp: connection refused")).
Proof.
  apply (proj1 (proj1 (proj2 (proj2
           (transport_errors_passed_on
              (RemoteStatus.answering RemoteStatus.refused)
              (RemoteCustomers.serving 200 RemoteCustomers.first_page no_data)
              "production" "user@example.com" None None))))
           _ eq_refl).
Defined.

Lemma error_string_surfaced_witness :
  outcome (GetCustomerInfo
             (RemoteCustomers.serving 200 RemoteCustomers.first_page
                (failure "customer not found"))
             "user@example.com")
  = Fail (errors_New "customer not found").
Proof.
  assert (Hne : "customer not found"%string <> EmptyString) by discriminate.
  destruct (error_string_surfaced
              (serving no_data no_data no_data)
              (RemoteCustomers.serving 200 RemoteCustomers.first_page
                 (failure "customer not found"))
              "user@example.com" None None "customer not found" Hne)
    as (_ & _ & H).
  apply (H (failure "customer not found")); [|reflexivity].
  eexists _, []. repeat split.
Defined.

Lemma decoded_data_returned_witness :
  outcome (ListCustomers
             (RemoteCustomers.serving 200 RemoteCustomers.first_page no_data)
             (Some 20) None)
  = Ok RemoteCustomers.first_page /\
  outcome (GetCustomerInfo
             (RemoteCustomers.serving 200 RemoteCustomers.first_page
                (data RemoteCustomers.user_row))
             "user@example.com")
  = Ok (Some RemoteCustomers.user_row).
Proof.
  split.
  - destruct (decoded_data_returned
                (serving no_data no_data no_data)
                (RemoteCustomers.serving 200 RemoteCustomers.first_page
                   no_data)
                "production" "user@example.com" (Some 20) None)
      as (_ & _ & _ & H & _).
    apply (H RemoteCustomers.first_page); [|left; reflexivity].
    eexists _, []. repeat split.
  - destruct (decoded_data_returned
                (serving no_data no_data no_data)
                (RemoteCustomers.serving 200 RemoteCustomers.first_page
                   (data RemoteCustomers.user_row))
                "production" "user@example.com" None None)
      as (_ & _ & _ & _ & H).
    apply (H (data RemoteCustomers.user_row)); [|left; reflexivity].
    eexists _, []. repeat split.
Defined.

(** Two products carry the subscription's reference: the first is the
    active product. *)
Lemma active_product_is_first_match_witness :
  outcome (GetActiveProduct
             (serving (data sub_pro)
                (data (slice_of [basic; pro;
                                 {| product_id := "pro";
                                    entitlement_id := "ent-basic";
                                    product_name := "Pro (old)" |}]))
                no_data)
             "user@example.com")
  = Ok (Some pro).
Proof.
  apply (proj2 (active_product_is_first_match
                  (serving (data sub_pro)
                     (data (slice_of [basic; pro;
                                      {| product_id := "pro";
                                         entitlement_id := "ent-basic";
                                         product_name := "Pro (old)" |}]))
                     no_data)
                  "user@example.com" sub_pro _ pro eq_refl eq_refl)).
  exists [basic], [{| product_id := "pro"; entitlement_id := "ent-basic";
                      product_name := "Pro (old)" |}].
  split; [reflexivity|]. split; [reflexivity|].
  intros y [<-|[]]. discriminate.
Defined.

Lemma active_entitlement_is_first_match_witness :
  outcome (GetActiveEntitlement
             (serving (data sub_pro) (data (slice_of [basic; pro]))
                (data (slice_of [ent_basic; ent_pro])))
             "user@example.com" "production")
  = Ok (Some ent_pro).
Proof.
  apply (proj2 (active_entitlement_is_first_match
                  (serving (data sub_pro) (data (slice_of [basic; pro]))
                     (data (slice_of [ent_basic; ent_pro])))
                  "user@example.com" "production" pro _ ent_pro
                  eq_refl eq_refl)).
  exists [ent_basic], []. split; [reflexivity|]. split; [reflexivity|].
  intros y [<-|[]]. discriminate.
Defined.

Lemma lookup_errors_passed_on_witness :
  outcome (GetActiveEntitlement (RemoteStatus.answering RemoteStatus.refused)
             "user@example.com" "production")
  = Fail (errors_New "dial tcp: connection refused").
Proof.
  apply (proj1 (lookup_errors_passed_on
                  (RemoteStatus.answering RemoteStatus.refused)
                  "user@example.com" "production" _)
           eq_refl).
Defined.

End EndpointRuns.
